(** * Shallow embedding of the zerocloud object-node execution middleware

    The Python sources embedded here are [zerocloud/__init__.py]
    ([can_run_as_daemon], [merge_headers], [load_server_conf], the report
    constants) and [zerocloud/objectquery.py] (channel resolution, the
    upload and error paths of [zerovm_query], [execute_zerovm],
    [send_to_socket], [validate], [is_validated], [_finalize_local_file],
    [_parse_zerovm_report], [_channel_cleanup], the manifest write loop,
    [get_zerovm_sysimage_devices], [DualReader] and the WSGI
    entry point [__call__]).

    Python strings are [String.string]; Python integers are [Z]; Python
    dicts with string keys are association lists (the latest binding
    first, or in insertion order where the code updates a dict in
    place); exceptions raised as swob HTTP errors are a result type
    carrying the HTTP status. *)

From Stdlib Require Import String Ascii List ZArith Bool Lia.
Import ListNotations.
Open Scope string_scope.

(* ------------------------------------------------------------------ *)
(** ** Python helpers *)

Module Py.

(** [s1 in s2] for Python strings. *)
Fixpoint contains (s1 s2 : string) : bool :=
  if String.prefix s1 s2 then true
  else match s2 with
       | EmptyString => false
       | String _ s2' => contains s1 s2'
       end.

(** Python truthiness of a string. *)
Definition truthy (s : string) : bool :=
  match s with EmptyString => false | _ => true end.

(** [s.startswith(p)] *)
Definition startswith (s p : string) : bool := String.prefix p s.

(** Python dict lookup, [d.get(k)]. *)
Fixpoint get {A} (k : string) (d : list (string * A)) : option A :=
  match d with
  | [] => None
  | (k', v) :: d' => if String.eqb k k' then Some v else get k d'
  end.

(** Python dict assignment [d[k] = v]. *)
Definition set {A} (k : string) (v : A) (d : list (string * A))
  : list (string * A) := (k, v) :: d.

(** [s.split(sep, maxsplit)] for a one-character separator: at most
    [maxsplit] splits, so at most [maxsplit + 1] fields. *)
Fixpoint split_max (sep : ascii) (maxsplit : nat) (s : string)
  : list string :=
  match s with
  | EmptyString => [EmptyString]
  | String c s' =>
      match maxsplit with
      | O => [s]
      | S m =>
          if Ascii.eqb c sep then EmptyString :: split_max sep m s'
          else match split_max sep maxsplit s' with
               | [] => [String c EmptyString]
               | f :: fs => String c f :: fs
               end
      end
  end.

(** [s.split(sep)] without a limit. *)
Fixpoint split (sep : ascii) (s : string) : list string :=
  match s with
  | EmptyString => [EmptyString]
  | String c s' =>
      if Ascii.eqb c sep then EmptyString :: split sep s'
      else match split sep s' with
           | [] => [String c EmptyString]
           | f :: fs => String c f :: fs
           end
  end.

(** Python [int(s)] for a base-10 literal: optional surrounding blanks,
    an optional sign and at least one digit; [None] stands for the
    [ValueError] Python raises otherwise. *)
Definition is_blank (c : ascii) : bool :=
  match c with
  | " "%char | "009"%char | "010"%char | "011"%char | "012"%char
  | "013"%char => true
  | _ => false
  end.

Fixpoint strip_left (s : string) : string :=
  match s with
  | String c s' => if is_blank c then strip_left s' else s
  | EmptyString => EmptyString
  end.

Fixpoint rev_string (s : string) : string :=
  match s with
  | EmptyString => EmptyString
  | String c s' => rev_string s' ++ String c EmptyString
  end.

Definition strip (s : string) : string :=
  rev_string (strip_left (rev_string (strip_left s))).

Definition digit (c : ascii) : option Z :=
  let n := Z.of_nat (nat_of_ascii c) in
  if (48 <=? n)%Z && (n <=? 57)%Z then Some (n - 48)%Z else None.

Fixpoint digits_acc (acc : Z) (s : string) : option Z :=
  match s with
  | EmptyString => Some acc
  | String c s' =>
      match digit c with
      | Some d => digits_acc (10 * acc + d)%Z s'
      | None => None
      end
  end.

Definition digits (s : string) : option Z :=
  match s with
  | EmptyString => None
  | _ => digits_acc 0 s
  end.

Definition int (s : string) : option Z :=
  match strip s with
  | String "-"%char s' => option_map Z.opp (digits s')
  | String "+"%char s' => digits s'
  | s' => digits s'
  end.

End Py.

(* ------------------------------------------------------------------ *)
(** ** [can_run_as_daemon] (zerocloud/__init__.py) *)

Module Daemon.

(** The fields of a [ZvmNode] the predicate reads. *)
Record zchannel := { device : string }.

Record zvm_node := {
  exe : string;
  channels : list zchannel;
  connect : list string;
  bind : list string
}.

(** [sorted(channels, key=lambda ch: ch.device)]: a stable insertion
    sort on the device name (Python compares strings code point by code
    point, as [String.leb] does on ASCII). *)
Fixpoint insert_by_device (x : zchannel) (l : list zchannel)
  : list zchannel :=
  match l with
  | [] => [x]
  | y :: l' =>
      if String.leb (device x) (device y) then x :: y :: l'
      else y :: insert_by_device x l'
  end.

Fixpoint sort_by_device (l : list zchannel) : list zchannel :=
  match l with
  | [] => []
  | x :: l' => insert_by_device x (sort_by_device l')
  end.

(** [for n, d in zip(channels, daemon_conf.channels):
        if n.device not in d.device: return False] *)
Fixpoint zip_devices_ok (ns ds : list zchannel) : bool :=
  match ns, ds with
  | n :: ns', d :: ds' =>
      Py.contains (device n) (device d) && zip_devices_ok ns' ds'
  | _, _ => true
  end.

Definition list_truthy {A} (l : list A) : bool :=
  match l with [] => false | _ => true end.

Definition can_run_as_daemon (node_conf daemon_conf : zvm_node) : bool :=
  if negb (String.eqb (exe node_conf) (exe daemon_conf)) then false
  else if negb (list_truthy (channels node_conf)) then false
  else if negb (Nat.eqb (length (channels node_conf))
                        (length (channels daemon_conf))) then false
  else if list_truthy (connect node_conf) || list_truthy (bind node_conf)
  then false
  else zip_devices_ok (sort_by_device (channels node_conf))
                      (channels daemon_conf).

(** The predicate as the spec words it: every sorted node channel's
    device is a substring of SOME daemon device. *)
Definition spec_can_reuse (node_conf daemon_conf : zvm_node) : Prop :=
  exe node_conf = exe daemon_conf /\
  length (channels node_conf) = length (channels daemon_conf) /\
  (forall n, In n (sort_by_device (channels node_conf)) ->
     exists d, In d (channels daemon_conf) /\
               Py.contains (device n) (device d) = true) /\
  connect node_conf = [] /\ bind node_conf = [].

End Daemon.

(* ------------------------------------------------------------------ *)
(** ** Channel resolution in [zerovm_query] (objectquery.py, 910-979) *)

Module Resolve.

(** Modelled from the spec: the access flags of [zerocloud.common]
    (not in the sources), a bitfield READABLE, WRITABLE, RANDOM, NETWORK,
    CDR. *)
Definition ACCESS_READABLE : Z := 1.
Definition ACCESS_WRITABLE : Z := 2.
Definition ACCESS_RANDOM : Z := 4.
Definition ACCESS_NETWORK : Z := 8.
Definition ACCESS_CDR : Z := 16.

(** Modelled from the spec: the result of [parse_location] of
    [zerocloud.common] (not in the sources): a [SwiftPath(account,
    container, object)], an [ImagePath(image, inner_path)] or another
    location such as a network endpoint, each with its [path]. *)
Inductive location :=
| SwiftPath (account container obj : string)
| ImagePath (image inner : string)
| OtherPath (path : string).

Definition location_path (l : location) : string :=
  match l with
  | SwiftPath a c o => "/" ++ a ++ "/" ++ c ++ "/" ++ o
  | ImagePath i p => i ++ ":" ++ p
  | OtherPath p => p
  end.

(** A channel of the system map ([ch] dict), with the keys the
    resolution loop reads or writes. *)
Record chan := {
  device : string;
  path : option location;        (* parse_location(ch['path']) *)
  access : Z;
  lpath : option string;
  size : option Z;
  path_info : option string
}.

Definition set_lpath (ch : chan) (p : string) : chan :=
  {| device := device ch; path := path ch; access := access ch;
     lpath := Some p; size := size ch; path_info := path_info ch |}.

Definition set_size_info (ch : chan) (sz : option Z) (pi : option string)
  : chan :=
  {| device := device ch; path := path ch; access := access ch;
     lpath := lpath ch; size := sz; path_info := pi |}.

(** [LocalObject] together with what its disk file / container broker
    report to the loop. *)
Record local_object := {
  lo_account : string;
  lo_container : string;
  lo_obj : string;
  lo_data_file : string;          (* disk_file.data_file *)
  lo_content_length : Z;          (* int(meta['Content-Length']) *)
  lo_name : string;               (* disk_file.name *)
  lo_db_file : string;            (* broker.db_file *)
  lo_db_size : Z                  (* getsize(broker.db_file) *)
}.

Definition has_local_file (lo : local_object) : bool :=
  Py.truthy (lo_container lo) || Py.truthy (lo_obj lo).

(** The environment of the loop, fixed for the request. *)
Record env := {
  sysimage_devices : list (string * string); (* name -> image path *)
  access_type : string;                      (* x-zerovm-access *)
  rbytes : Z;
  is_master : bool;
  writable_tmpdir : string
}.

(** Modelled from the spec: [parser.is_sysimage_device] and
    [parser.get_sysimage] of [zerocloud.configparser] (not in the
    sources): the device is a registered system-image name, and its image
    path. *)
Definition is_sysimage_device (e : env) (dev : string) : bool :=
  match Py.get dev (sysimage_devices e) with Some _ => true | None => false end.

Definition get_sysimage (e : env) (dev : string) : option string :=
  Py.get dev (sysimage_devices e).

(** Mutable state of the loop: the [channels] dict (device -> file),
    [response_channels] (as indices into the system map's channel list),
    [local_object.channel] (an index: the code compares it by identity),
    and a counter naming the files [mkstemp] creates. *)
Record rstate := {
  rs_channels : list (string * string);
  rs_response : list nat;
  rs_local_channel : option nat;
  rs_tmp_counter : nat
}.

Inductive result (A : Type) :=
| Ok (a : A)
| HttpError (status : Z) (body : string).
Arguments Ok {A} a.
Arguments HttpError {A} status body.

Definition mkstemp_name (e : env) (k : nat) : string :=
  writable_tmpdir e ++ "/tmp" ++ String (ascii_of_nat (48 + k)) EmptyString.

(** First block of the loop body:
    [if ch['device'] in channels: ... elif local_object.has_local_file and
    chan_path: ...]. *)
Definition resolve_first (e : env) (lo : local_object) (idx : nat)
    (ch : chan) (st : rstate) : result (chan * rstate) :=
  match Py.get (device ch) (rs_channels st) with
  | Some f => Ok (set_lpath ch f, st)
  | None =>
    match path ch with
    | Some (SwiftPath a c o) =>
      if has_local_file lo then
        if String.eqb a (lo_account lo) && String.eqb c (lo_container lo)
           && String.eqb o (lo_obj lo) then
          let st_local := {| rs_channels := rs_channels st;
                             rs_response := rs_response st;
                             rs_local_channel := Some idx;
                             rs_tmp_counter := rs_tmp_counter st |} in
          if Py.truthy o then
            if String.eqb (access_type e) "GET" then
              if (lo_content_length lo >? rbytes e)%Z then
                HttpError 413 "Data object too large"
              else
                let ch' := set_size_info (set_lpath ch (lo_data_file lo))
                             (Some (lo_content_length lo)) (Some (lo_name lo)) in
                Ok (ch', {| rs_channels := Py.set (device ch) (lo_data_file lo)
                                                  (rs_channels st);
                            rs_response := rs_response st;
                            rs_local_channel := Some idx;
                            rs_tmp_counter := rs_tmp_counter st |})
            else Ok (set_size_info ch (size ch) (Some (lo_name lo)), st_local)
          else if Py.truthy c then
            if String.eqb (access_type e) "GET" then
              if (lo_db_size lo >? rbytes e)%Z then
                HttpError 413 "Data object too large"
              else
                let ch' := set_size_info (set_lpath ch (lo_db_file lo))
                             (Some (lo_db_size lo))
                             (Some ("/" ++ a ++ "/" ++ c)) in
                Ok (ch', {| rs_channels := Py.set (device ch) (lo_db_file lo)
                                                  (rs_channels st);
                            rs_response := rs_response st;
                            rs_local_channel := Some idx;
                            rs_tmp_counter := rs_tmp_counter st |})
            else Ok (ch, st_local)
          else Ok (ch, st_local)
        else Ok (ch, st)
      else Ok (ch, st)
    | _ => Ok (ch, st)
    end
  end.

(** Second block of the loop body, a separate [if] chain:
    system image, [stdin] null device, readable check, writable temp
    file, network endpoint. *)
Definition resolve_second (e : env) (idx : nat) (ch : chan) (st : rstate)
  : result (chan * rstate) :=
  if is_sysimage_device e (device ch) then
    match get_sysimage e (device ch) with
    | Some p => Ok (set_lpath ch p, st)
    | None => Ok (ch, st)
    end
  else if (match path ch with None => true | Some _ => false end) &&
          (match lpath ch with None => true | Some _ => false end) &&
          String.eqb (device ch) "stdin" then
    Ok (set_lpath ch "/dev/null", st)
  else if negb (Z.eqb (Z.land (access ch) (Z.lor ACCESS_READABLE ACCESS_CDR)) 0)
  then
    match lpath ch with
    | Some _ => Ok (ch, st)
    | None =>
      match path ch with
      | None | Some (ImagePath _ _) | Some (SwiftPath _ _ _) =>
          HttpError 400 ("Could not resolve channel path for device: "
                         ++ device ch)
      | Some (OtherPath _) => Ok (ch, st)
      end
    end
  else if negb (Z.eqb (Z.land (access ch) ACCESS_WRITABLE) 0) then
    let fn := mkstemp_name e (rs_tmp_counter st) in
    let resp :=
      if is_master e then
        match path ch with
        | None => (rs_response st ++ [idx])%list
        | Some _ =>
            match rs_local_channel st with
            | Some j => if Nat.eqb j idx then rs_response st
                        else idx :: rs_response st
            | None => idx :: rs_response st
            end
        end
      else rs_response st in
    Ok (set_lpath ch fn,
        {| rs_channels := Py.set (device ch) fn (rs_channels st);
           rs_response := resp;
           rs_local_channel := rs_local_channel st;
           rs_tmp_counter := S (rs_tmp_counter st) |})
  else if negb (Z.eqb (Z.land (access ch) ACCESS_NETWORK) 0) then
    match path ch with
    | Some l => Ok (set_lpath ch (location_path l), st)
    | None => Ok (ch, st)  (* chan_path.path on None raises; unreachable
                              for well-formed network channels *)
    end
  else Ok (ch, st).

Definition resolve_channel (e : env) (lo : local_object) (idx : nat)
    (ch : chan) (st : rstate) : result (chan * rstate) :=
  match resolve_first e lo idx ch st with
  | Ok (ch', st') => resolve_second e idx ch' st'
  | HttpError s b => HttpError s b
  end.

(** [for ch in config['channels']: ...] *)
Fixpoint resolve_all (e : env) (lo : local_object) (idx : nat)
    (chs : list chan) (st : rstate) : result (list chan * rstate) :=
  match chs with
  | [] => Ok ([], st)
  | ch :: chs' =>
      match resolve_channel e lo idx ch st with
      | HttpError s b => HttpError s b
      | Ok (ch', st') =>
          match resolve_all e lo (S idx) chs' st' with
          | HttpError s b => HttpError s b
          | Ok (rest, st'') => Ok (ch' :: rest, st'')
          end
      end
  end.

(** The resolution entry: [channels] starts as the files uploaded in the
    request tar (device name -> temp path). *)
Definition resolve_channels (e : env) (lo : local_object)
    (uploaded : list (string * string)) (chs : list chan)
  : result (list chan * rstate) :=
  resolve_all e lo 0 chs
    {| rs_channels := uploaded; rs_response := [];
       rs_local_channel := None; rs_tmp_counter := 0 |}.

End Resolve.

(* ------------------------------------------------------------------ *)
(** ** After the sandbox run: report handling, [_create_exec_error],
       [_channel_cleanup], [_finalize_local_file]
       (objectquery.py 612-623, 1118-1230, 1434-1522, 1571-1576) *)

Module Tail.

Definition REPORT_LENGTH : nat := 6.
Definition REPORT_VALIDATOR : nat := 0.
Definition REPORT_DAEMON : nat := 1.
Definition REPORT_RETCODE : nat := 2.
Definition REPORT_ETAG : nat := 3.
Definition REPORT_CDR : nat := 4.
Definition REPORT_STATUS : nat := 5.
Definition MD5HASH_LENGTH : nat := 32.

Definition RETCODE_MAP : list string :=
  ["OK"; "Error"; "Timed out"; "Killed"; "Output too long"].

(** [nexe_headers] (a dict with string keys). *)
Definition headers := list (string * string).

Definition initial_nexe_headers : headers :=
  [("x-nexe-retcode", "0"); ("x-nexe-status", "Zerovm did not run");
   ("x-nexe-etag", ""); ("x-nexe-validation", "0");
   ("x-nexe-cdr-line", "0 0 0 0 0 0 0 0 0 0"); ("x-nexe-system", "")].

(** The file system, as the set of existing paths. *)
Definition fs := list string.

(** [os.unlink(p)], the [OSError] of a missing file ignored. *)
Definition unlink (p : string) (f : fs) : fs :=
  filter (fun q => negb (String.eqb p q)) f.

(** A response channel: the keys [_channel_cleanup] reads. *)
Record rchan := { rc_device : string; rc_lpath : string }.

(** [_channel_cleanup(response_channels)] *)
Fixpoint channel_cleanup (chs : list rchan) (f : fs) : fs :=
  match chs with
  | [] => f
  | ch :: chs' => channel_cleanup chs' (unlink (rc_lpath ch) f)
  end.

Record response := {
  status : Z;
  resp_headers : headers;
  body : string
}.

(** What the request handler ends with: a returned response, or a swob
    HTTP exception propagating to [__call__]. *)
Inductive outcome :=
| Returned (r : response)
| Raised (status : Z) (body : string).

Fixpoint Z_to_dec_aux (fuel : nat) (n : Z) (acc : string) : string :=
  match fuel with
  | O => acc
  | S fuel' =>
      let d := Z.modulo n 10 in
      let acc' := String (ascii_of_nat (48 + Z.to_nat d)) acc in
      if (n <? 10)%Z then acc' else Z_to_dec_aux fuel' (Z.div n 10) acc'
  end.

(** [str(n)] *)
Definition Z_to_string (n : Z) : string :=
  if (n <? 0)%Z then "-" ++ Z_to_dec_aux 64 (- n) ""
  else Z_to_dec_aux 64 n "".

(** [_create_exec_error(nexe_headers, zerovm_retcode, zerovm_stdout,
    response_channels)] *)
Definition create_exec_error (nh : headers) (rc : Z) (stdout : string)
    (chs : list rchan) (f : fs) : response * fs :=
  let err := "ERROR OBJ.QUERY retcode=" ++
             nth (Z.to_nat rc) RETCODE_MAP "" ++
             ",  zerovm_stdout=" ++ stdout in
  let nh' := Py.set "x-nexe-status" "ZeroVM runtime error" nh in
  ({| status := 500; resp_headers := nh'; body := err |},
   channel_cleanup chs f).

Fixpoint replace_char (c r : ascii) (s : string) : string :=
  match s with
  | EmptyString => EmptyString
  | String c' s' =>
      String (if Ascii.eqb c c' then r else c') (replace_char c r s')
  end.

Definition rstrip (s : string) : string :=
  Py.rev_string (Py.strip_left (Py.rev_string s)).

(** [_parse_zerovm_report(nexe_headers, report)]: it mutates the dict in
    place, so when an [int()] raises [ValueError] the assignments done
    before it stay; the boolean is [false] on [ValueError]. *)
Definition parse_zerovm_report (nh : headers) (report : list string)
  : headers * bool :=
  let field i := nth i report "" in
  match Py.int (field REPORT_VALIDATOR) with
  | None => (nh, false)
  | Some v =>
    let nh1 := Py.set "x-nexe-validation" (Z_to_string v) nh in
    match Py.int (field REPORT_RETCODE) with
    | None => (nh1, false)
    | Some r =>
      let nh2 :=
        Py.set "x-nexe-status"
          (rstrip (replace_char "010"%char " "%char (field REPORT_STATUS)))
        (Py.set "x-nexe-cdr-line" (field REPORT_CDR)
        (Py.set "x-nexe-etag" (field REPORT_ETAG)
        (Py.set "x-nexe-retcode" (Z_to_string r) nh1))) in
      match Py.int (field REPORT_DAEMON) with
      | None => (nh2, false)
      | Some d =>
          if (d >? 0)%Z then (Py.set "x-zerovm-daemon" (Z_to_string d) nh2, true)
          else (nh2, true)
      end
    end
  end.

(** The local writable object being finalized: its channel and disk
    file, with what the file system reports about it. *)
Record local_write := {
  lw_lpath : string;             (* local_object['lpath'] *)
  lw_content_type : string;
  lw_size : Z;
  lw_offset : Z;                 (* 0 when no CGI/HTTP preamble *)
  lw_access : Z;
  lw_channel_device : string;    (* disk_file.channel_device *)
  lw_new_timestamp : string;
  lw_file_md5 : string;          (* md5 of the bytes after the offset *)
  lw_rewrite_tmp : string;       (* the file mkstemp() returns for a rewrite *)
  lw_no_space : bool             (* DiskFileNoSpace from the writer *)
}.

(** [zip] of [iter(channel_etag)] with itself: consecutive pairs, an odd
    last item dropped. *)
Fixpoint pairs (l : list string) : list (string * string) :=
  match l with
  | a :: b :: l' => (a, b) :: pairs l'
  | _ => []
  end.

Fixpoint find_etag (chdev : string) (ps : list (string * string))
  : option string :=
  match ps with
  | [] => None
  | (dev, etag) :: ps' =>
      if Py.contains chdev dev then Some etag else find_etag chdev ps'
  end.

(** The metadata [_finalize_local_file] writes. *)
Definition metadata := list (string * string).

(** [_finalize_local_file(...)]: [Raised] on the HTTP exceptions it
    raises; on success the metadata put to the object store.
    [disk_file.create(fd)] unlinks [disk_file.tmppath] (the channel's file,
    now linked into the object store) when the writer closes. *)
Definition finalize_local_file (lw : local_write) (nexe_etag : string)
    (f : fs) : (outcome + metadata) * fs :=
  let data := Py.split " "%char nexe_etag in
  let channel_etag :=
    if Py.startswith (nth 0 data "") "/" then data else tl data in
  match find_etag (lw_channel_device lw) (pairs channel_etag) with
  | None =>
      (inl (Raised 422 ("No etag found for resulting object after writing channel "
                        ++ lw_channel_device lw ++ " data")), f)
  | Some reported =>
    if negb (Py.truthy reported) then
      (inl (Raised 422 ("No etag found for resulting object after writing channel "
                        ++ lw_channel_device lw ++ " data")), f)
    else if negb (Nat.eqb (String.length reported) MD5HASH_LENGTH) then
      (inl (Raised 422 ("Bad etag for " ++ lw_channel_device lw ++ ": "
                        ++ reported)), f)
    else
      let md0 := [("X-Timestamp", lw_new_timestamp lw);
                  ("Content-Type", lw_content_type lw);
                  ("ETag", reported);
                  ("Content-Length", Z_to_string (lw_size lw))] in
      let '(md, lpath, f1) :=
        if negb (Z.eqb (lw_offset lw) 0) then
          (Py.set "ETag" (lw_file_md5 lw) md0, lw_rewrite_tmp lw,
           lw_rewrite_tmp lw :: unlink (lw_lpath lw) f)
        else if negb (Z.eqb (Z.land (lw_access lw) Resolve.ACCESS_RANDOM) 0)
        then (Py.set "ETag" (lw_file_md5 lw) md0, lw_lpath lw, f)
        else (md0, lw_lpath lw, f) in
      let f2 := unlink lpath f1 in
      if lw_no_space lw then (inl (Raised 507 "Insufficient Storage"), f2)
      else (inr md, f2)
  end.

(** Lines 1118-1230 of [zerovm_query], from the end of the sandbox run
    ([zerovm_retcode], [zerovm_stdout], [zerovm_stderr]) to the returned
    response.  [local] is the local object channel when
    [local_object.has_local_file and local_object.obj and
    channel['access'] & ACCESS_WRITABLE].  On success the response
    channel files stay on disk: [resp_iter] unlinks each one as it streams
    it. *)
Definition after_run (nh : headers) (rc : Z) (stdout stderr : string)
    (nvram_file : string) (chs : list rchan) (local : option local_write)
    (f : fs) : outcome * fs :=
  let f0 := unlink nvram_file f in
  let stdout := if Py.truthy stderr then stdout ++ stderr else stdout in
  let report := Py.split_max "010"%char (REPORT_LENGTH - 1) stdout in
  let '(nh1, parsed) :=
    if Nat.eqb (length report) REPORT_LENGTH
    then parse_zerovm_report nh report else (nh, true) in
  if negb parsed then
    let '(r, f1) := create_exec_error nh1 rc stdout chs f0 in (Returned r, f1)
  else if (rc >? 1)%Z || (length report <? REPORT_LENGTH)%nat then
    let '(r, f1) := create_exec_error nh1 rc stdout chs f0 in (Returned r, f1)
  else
    let hdrs := if (rc >? 0)%Z then Py.set "x-nexe-error" "bad return code" nh1
                else nh1 in
    let resp := {| status := 200; resp_headers := hdrs; body := "" |} in
    match local with
    | None => (Returned resp, f0)
    | Some lw =>
        match finalize_local_file lw (match Py.get "x-nexe-etag" nh1 with
                                      | Some e => e | None => "" end) f0 with
        | (inl o, f1) => (o, f1)
        | (inr _, f1) => (Returned resp, f1)
        end
    end.

End Tail.

(* ------------------------------------------------------------------ *)
(** ** Ingest: [zerovm_query] from its entry to the parsed body
       (objectquery.py 684-865) *)

Module Ingest.

Definition TAR_MIMES : list string :=
  ["application/x-tar"; "application/x-gtar"; "application/x-ustar";
   "application/x-gzip"].

(** One chunk of [req.body_file.read(network_chunk_size)]: its length,
    the value of [time.time()] when the loop checks it, and whether
    writing its tar members succeeds ([false]: [zlib.error] while
    inflating [image.gz]). *)
Record chunk := {
  chunk_len : Z;
  chunk_time : Z;
  chunk_untar_ok : bool
}.

(** The request headers and URL parts [zerovm_query] reads. *)
Record request := {
  h_zerocloud_id : option string;
  h_content_length : option string;
  h_content_type : option string;
  h_access : option string;         (* x-zerovm-access *)
  h_colocated : option string;      (* x-nexe-colocated *)
  h_pool : option string;           (* x-zerovm-pool *)
  h_timestamp_is_float : bool;      (* float(x-timestamp) succeeds *)
  url_container : string;
  url_obj : string;
  req_body : list chunk
}.

(** The node's configuration and what the object store answers. *)
Record node := {
  rbytes : Z;
  max_upload_time : Z;
  start_time : Z;                   (* time.time() before the body loop *)
  device_available : bool;          (* get_disk_file raises
                                       DiskFileDeviceUnavailable if false *)
  disk_file_exists : bool;          (* disk_file.open() *)
  container_deleted : bool;         (* broker.is_deleted() *)
  pools : list string;              (* names in zerovm_thread_pools *)
  pool_can_spawn : bool             (* thrdpool.can_spawn(job_id) *)
}.

Inductive ingest_result :=
| Raise (status : Z) (body : string)
| Ingested (position : Z).

Definition lower_ascii (c : ascii) : ascii :=
  let n := nat_of_ascii c in
  if (65 <=? n)%nat && (n <=? 90)%nat then ascii_of_nat (n + 32) else c.

Fixpoint lower (s : string) : string :=
  match s with
  | EmptyString => EmptyString
  | String c s' => String (lower_ascii c) (lower s')
  end.

Definition opt_truthy (o : option string) : bool :=
  match o with Some s => Py.truthy s | None => false end.

(** The body loop (lines 806-849): [req.body_file.position] grows with
    every chunk; the loop ends at the first empty read. *)
Fixpoint body_loop (nd : node) (expiration : Z) (pos : Z)
    (chunks : list chunk) : ingest_result :=
  match chunks with
  | [] => Ingested pos
  | c :: cs =>
      if (chunk_len c <=? 0)%Z then Ingested pos
      else
        let pos' := (pos + chunk_len c)%Z in
        if (pos' >? rbytes nd)%Z then Raise 413 "RPC request too large"
        else if (chunk_time c >? expiration)%Z then Raise 408 "Request Timeout"
        else if negb (chunk_untar_ok c) then
          Raise 422 "Failed to inflate gzipped image"
        else body_loop nd expiration pos' cs
  end.

(** Lines 723-794: the local object or container, then the pool. *)
Definition object_checks (req : request) (nd : node) : option (Z * string) :=
  let access_type := match h_access req with Some a => a | None => "" end in
  let obj_check :=
    if Py.truthy (url_obj req) then
      if negb (device_available nd) then
        if opt_truthy (h_colocated req) then Some (404%Z, "Not Found")
        else Some (507%Z, "Insufficient Storage")
      else if String.eqb access_type "GET" then
        if disk_file_exists nd then None else Some (404%Z, "Not Found")
      else if String.eqb access_type "PUT" then
        if h_timestamp_is_float req then None
        else Some (400%Z, "Locally writable object specified but no x-timestamp in request")
      else None
    else if Py.truthy (url_container req) then
      if String.eqb access_type "GET" then
        if container_deleted nd then Some (404%Z, "Not Found") else None
      else Some (405%Z, "requests on containers are not supported.")
    else None in
  match obj_check with
  | Some e => Some e
  | None =>
      let pool := lower (match h_pool req with Some p => p | None => "default" end) in
      if negb (existsb (String.eqb pool) (pools nd)) then
        Some (400%Z, "Cannot find pool " ++ pool)
      else if negb (pool_can_spawn nd) then Some (503%Z, "Slot not available")
      else None
  end.

(** [zerovm_query] up to the end of the upload (lines 684-865).  An
    unparsable [Content-Length] makes [int()] raise [ValueError], which
    [__call__] turns into a 500. *)
Definition ingest (req : request) (nd : node) : ingest_result :=
  if negb (opt_truthy (h_zerocloud_id req)) then
    Raise 500 "X-Zerocloud-Id header is missing"
  else
  match (match h_content_length req with
         | None => Some None
         | Some s => option_map Some (Py.int s)
         end) with
  | None => Raise 500 "ValueError"
  | Some cl =>
    if (match cl with Some n => (n >? rbytes nd)%Z | None => false end) then
      Raise 413 "RPC request too large"
    else match h_content_type req with
    | None => Raise 400 "No content type"
    | Some ct =>
      if negb (existsb (String.eqb ct) TAR_MIMES) then
        Raise 400 "Invalid Content-Type"
      else match object_checks req nd with
      | Some (s, b) => Raise s b
      | None =>
        match body_loop nd (start_time nd + max_upload_time nd) 0 (req_body req) with
        | Raise s b => Raise s b
        | Ingested pos =>
            match cl with
            | Some n =>
                if (pos <? n)%Z then Raise 499 "Client Disconnect"
                else if (pos >? n)%Z then
                  Raise 400 "Actual content length is greater than the 'Content-Length' header"
                else Ingested pos
            | None => Ingested pos
            end
        end
      end
    end
  end.

End Ingest.

(* ------------------------------------------------------------------ *)
(** ** [execute_zerovm] (objectquery.py 440-518) *)

Module Exec.

Inductive stream := SOut | SErr.

Definition stream_eqb (a b : stream) : bool :=
  match a, b with SOut, SOut | SErr, SErr => true | _, _ => false end.

(** What one [select.select(readable, ...)] call followed by the reads of
    [read_from_std] observes: for each ready pipe the bytes of
    [os.read(fd, 4096)] ([""] at EOF); or the expiry of the enclosing
    eventlet [Timeout]. *)
Inductive event :=
| Ready (reads : list (stream * string))
| Expire.

(** The child process as the loop observes it.  [events] is the trace of
    the polling loops: the first [Expire] ends the primary phase
    ([timeout + TIMEOUT_GRACE]), the next one ends the drain phase
    ([zerovm_kill_timeout]); a trace that runs out stands for an
    [Expire].  [exits_by_itself]: after closing its pipes the child exits
    before the deadline, with [exit_code].  [dies_on_term]: SIGTERM ends
    it before [zerovm_kill_timeout].  [rest_after_kill]: the bytes still
    in the two pipes that [proc.communicate()] returns after
    [proc.kill()]. *)
Record child := {
  events : list event;
  exit_code : Z;
  exits_by_itself : bool;
  dies_on_term : bool;
  rest_after_kill : string * string
}.

Record caps := { stdout_size : Z; stderr_size : Z }.

(** [self.zerovm_stdout_size = 65536], [self.zerovm_stderr_size = 65536] *)
Definition default_caps : caps := {| stdout_size := 65536; stderr_size := 65536 |}.

Definition slen (s : string) : Z := Z.of_nat (String.length s).

(** [read_from_std] on one select result. *)
Fixpoint read_from_std (readable : list stream) (out err : string)
    (reads : list (stream * string)) : list stream * string * string :=
  match reads with
  | [] => (readable, out, err)
  | (s, d) :: rs =>
      if negb (existsb (stream_eqb s) readable) then
        read_from_std readable out err rs
      else if negb (Py.truthy d) then
        read_from_std (filter (fun x => negb (stream_eqb s x)) readable)
                      out err rs
      else match s with
           | SOut => read_from_std readable (out ++ d) err rs
           | SErr => read_from_std readable out (err ++ d) rs
           end
  end.

Inductive poll_result :=
| PCap (out err : string)                    (* output too long *)
| PEof (out err : string) (rest : list event)
| PExpire (readable : list stream) (out err : string) (rest : list event).

(** [while len(readable) > 0: read_from_std(...); if too long: ...] *)
Fixpoint poll (c : caps) (readable : list stream) (out err : string)
    (evs : list event) : poll_result :=
  match evs with
  | [] => PExpire readable out err []
  | Expire :: evs' => PExpire readable out err evs'
  | Ready rs :: evs' =>
      let '(readable', out', err') := read_from_std readable out err rs in
      if (slen out' >? stdout_size c)%Z || (slen err' >? stderr_size c)%Z
      then PCap out' err'
      else match readable' with
           | [] => PEof out' err' evs'
           | _ => poll c readable' out' err' evs'
           end
  end.

(** [execute_zerovm(...)]: [(return_code, stdout_data, stderr_data)]. *)
Definition execute_zerovm (c : caps) (ch : child) : Z * string * string :=
  let killed out err :=
    (3%Z, out ++ fst (rest_after_kill ch), err ++ snd (rest_after_kill ch)) in
  (* except (Exception, Timeout): proc.terminate(); drain; get_final_status(2)
     or, on the second Timeout, proc.kill(); get_final_status(3) *)
  let drain readable out err evs :=
    match readable with
    | [] => if dies_on_term ch then (2%Z, out, err) else (3%Z, out, err)
    | _ =>
      match poll c readable out err evs with
      | PCap o e => (4%Z, o, e)
      | PEof o e _ => if dies_on_term ch then (2%Z, o, e) else (3%Z, o, e)
      | PExpire _ o e _ => killed o e
      end
    end in
  match poll c [SOut; SErr] "" "" (events ch) with
  | PCap o e => (4%Z, o, e)
  | PEof o e evs =>
      if exits_by_itself ch then
        ((if Z.eqb (exit_code ch) 0 then 0 else 1)%Z, o, e)
      else drain [] o e evs
  | PExpire r o e evs => drain r o e evs
  end.

End Exec.

(* ------------------------------------------------------------------ *)
(** ** [send_to_socket] (objectquery.py 417-438) *)

Module Sock.

Fixpoint hex_digits_aux (fuel : nat) (n : Z) (acc : string) : string :=
  match fuel with
  | O => acc
  | S fuel' =>
      let d := Z.to_nat (Z.modulo n 16) in
      let c := if (d <? 10)%nat then ascii_of_nat (48 + d)
               else ascii_of_nat (87 + d) in
      if (n <? 16)%Z then String c acc
      else hex_digits_aux fuel' (Z.div n 16) (String c acc)
  end.

Fixpoint zero_pad (fuel : nat) (w : nat) (s : string) : string :=
  match fuel with
  | O => s
  | S fuel' =>
      if (String.length s <? w)%nat then zero_pad fuel' w ("0" ++ s) else s
  end.

(** ['%06x' % n] for [n >= 0]: lower-case hex, at least six digits. *)
Definition fmt_06x (n : Z) : string := zero_pad 6 6 (hex_digits_aux 64 n "").

(** [size = '0x%06x' % len(zerovm_inputmnfst)] *)
Definition size_prefix (manifest : string) : string :=
  "0x" ++ fmt_06x (Z.of_nat (String.length manifest)).

(** A digit of base [b] ([None] for any other character). *)
Definition digit_in (b : Z) (c : ascii) : option Z :=
  let n := Z.of_nat (nat_of_ascii (Ingest.lower_ascii c)) in
  let v := if (48 <=? n)%Z && (n <=? 57)%Z then (n - 48)%Z
           else if (97 <=? n)%Z && (n <=? 122)%Z then (n - 87)%Z
           else 99%Z in
  if (v <? b)%Z then Some v else None.

Fixpoint digits_in_acc (b acc : Z) (s : string) : option Z :=
  match s with
  | EmptyString => Some acc
  | String c s' =>
      match digit_in b c with
      | Some d => digits_in_acc b (b * acc + d)%Z s'
      | None => None
      end
  end.

Definition digits_in (b : Z) (s : string) : option Z :=
  match s with EmptyString => None | _ => digits_in_acc b 0 s end.

(** Python 2 [int(s, 0)]: blanks stripped, an optional sign, then an
    integer literal: [0x]/[0X] hex, [0o]/[0O] or a leading [0] octal,
    [0b]/[0B] binary, otherwise decimal. *)
Definition unsigned_int0 (s : string) : option Z :=
  match s with
  | String "0"%char (String x rest) =>
      match Ingest.lower_ascii x with
      | "x"%char => digits_in 16 rest
      | "o"%char => digits_in 8 rest
      | "b"%char => digits_in 2 rest
      | _ => digits_in 8 (String x rest)
      end
  | _ => digits_in 10 s
  end.

Definition int0 (s : string) : option Z :=
  match Py.strip s with
  | String "-"%char s' => option_map Z.opp (unsigned_int0 s')
  | String "+"%char s' => unsigned_int0 s'
  | s' => unsigned_int0 s'
  end.

(** The daemon end of the socket as [send_to_socket] observes it:
    whether [sendall] fails with [IOError], whether the eventlet
    [Timeout] fires, and the bytes the daemon sends back.  [recv(n)]
    returns the next [min n available] bytes. *)
Record peer := {
  send_fails : bool;
  times_out : bool;
  reply : string
}.

Definition SIZE : nat := 8.

(** [send_to_socket(sock, zerovm_inputmnfst, timeout)]: the bytes given
    to [sendall] and the returned [(code, stdout, stderr)]. *)
Definition send_to_socket (stdout_size : Z) (manifest : string) (p : peer)
  : string * (Z * string * string) :=
  let sent := size_prefix manifest ++ manifest in
  (sent,
   if times_out p then (2%Z, "Timed out", "")
   else if send_fails p then (1%Z, "Socket error", "")
   else
     match int0 (substring 0 SIZE (reply p)) with
     | None => (1%Z, "Report error", "")
     | Some size =>
         if Z.eqb size 0 then (1%Z, "Report error", "")
         else if (size >? stdout_size)%Z then (4%Z, "Output too long", "")
         (* recv of a negative size raises ValueError *)
         else if (size <? 0)%Z then (1%Z, "Report error", "")
         else (0%Z, substring SIZE (Z.to_nat size) (reply p), "")
     end).

End Sock.

(* ------------------------------------------------------------------ *)
(** ** [validate] and [is_validated] (objectquery.py 1340-1432) *)

Module Validate.

Definition metadata := list (string * string).

(** The object as the disk file manager presents it: [None] metadata
    when it does not exist ([open()] raises [DiskFileNotExist]). *)
Record store := {
  device_available : bool;
  object_metadata : option metadata
}.

(** What [validate] and [is_validated] return: a boolean, the
    [HTTPInsufficientStorage] response object they return when the device
    is unavailable, or an exception escaping them ([KeyError],
    [ValueError] on [Content-Length], [DiskFileNotExist] from [open()]). *)
Inductive vresult :=
| VBool (b : bool)
| VInsufficientStorage
| VRaise.

(** [put_metadata]: [write_metadata(self._data_file, metadata)] replaces
    the object's metadata; the next [open()] reads it back. *)
Definition put_metadata (st : store) (md : metadata) : store :=
  {| device_available := device_available st; object_metadata := Some md |}.

(** [validate(req)]; [run] is the [(zerovm_retcode, zerovm_stdout)] of the
    [-F] sandbox run.  The store is returned with the result. *)
Definition validate (path_ok : bool) (maxnexe : Z) (st : store)
    (run : Z * string) : vresult * store :=
  if negb path_ok then (VBool false, st)
  else if negb (device_available st) then (VInsufficientStorage, st)
  else match object_metadata st with
  | None => (VRaise, st)
  | Some md =>
    match Py.get "Content-Length" md with
    | None => (VRaise, st)
    | Some cl =>
      match Py.int cl with
      | None => (VRaise, st)
      | Some n =>
        if (n >? maxnexe)%Z then (VBool false, st)
        else
          let '(rc, stdout) := run in
          if Z.eqb rc 0 then
            let report := Py.split_max "010"%char 1 stdout in
            match Py.int (nth Tail.REPORT_VALIDATOR report "") with
            | None => (VBool false, st)
            | Some validated =>
              if Z.eqb validated 0 then
                match Py.get "ETag" md with
                | None => (VRaise, st)
                | Some etag =>
                    (VBool true, put_metadata st (Py.set "Validated" etag md))
                end
              else (VBool false, st)
            end
          else (VBool false, st)
      end
    end
  end.

(** [is_validated(req)] *)
Definition is_validated (path_ok : bool) (st : store) : vresult :=
  if negb path_ok then VBool false
  else if negb (device_available st) then VInsufficientStorage
  else match object_metadata st with
  | None => VRaise
  | Some md =>
      match Py.get "Validated" md, Py.get "ETag" md with
      | Some status, Some etag =>
          VBool (Py.truthy status && Py.truthy etag && String.eqb etag status)
      | _, _ => VBool false
      end
  end.

End Validate.

(* ------------------------------------------------------------------ *)
(** ** The WSGI entry point [__call__] (objectquery.py 1264-1338) *)

Module Wsgi.

Definition headers := list (string * string).

(** What [self.zerovm_query(req)] ends with. *)
Inductive query_outcome :=
| QReturned (status : Z) (hdrs : headers)
| QHttpException (status : Z) (hdrs : headers)
| QOtherException.

Record wsgi_request := {
  path_is_utf8 : bool;
  method : string;
  has_execute : bool;          (* 'x-zerovm-execute' in req.headers *)
  has_validate : bool;         (* 'x-zerovm-validate' in req.headers *)
  has_valid : bool;            (* 'x-zerovm-valid' in req.headers *)
  content_type : string
}.

(** The collaborators: the query handler, the wrapped object server
    ([self.app]), the validator, and the elapsed time
    [time.time() - start_time], counted in milliseconds. *)
Record wsgi_env := {
  query : query_outcome;
  app_status : Z;
  app_headers : headers;
  validate_ok : bool;
  is_validated_ok : bool;
  elapsed_ms : Z
}.

Definition pad3 (s : string) : string :=
  match String.length s with
  | 0 => "000" | 1 => "00" ++ s | 2 => "0" ++ s | _ => s
  end.

(** ['%.3f' % trans_time] for a time of [ms] milliseconds, [ms >= 0]. *)
Definition fmt3 (ms : Z) : string :=
  Tail.Z_to_string (Z.div ms 1000) ++ "." ++
  pad3 (Tail.Z_to_string (Z.modulo ms 1000)).

Inductive call_result :=
| Own (status : Z) (hdrs : headers)          (* res(env, start_response) *)
| Passthrough (status : Z) (hdrs : headers). (* return self.app(env, ...) *)

Definition valid_hdr (ok : bool) (status : Z) (h : headers) : headers :=
  if (200 <=? status)%Z && (status <? 300)%Z && ok
  then (h ++ [("x-zerovm-valid", "true")])%list else h.

(** The CDR rewrite after the branches:
    [res.headers['x-nexe-cdr-line'] = '%.3f, %s' % (trans_time, ...)]. *)
Definition add_trans_time (ms : Z) (h : headers) : headers :=
  match Py.get "x-nexe-cdr-line" h with
  | Some cdr => Py.set "x-nexe-cdr-line" (fmt3 ms ++ ", " ++ cdr) h
  | None => h
  end.

Definition call (req : wsgi_request) (e : wsgi_env) : call_result :=
  let finish status h := Own status (add_trans_time (elapsed_ms e) h) in
  if negb (path_is_utf8 req) then finish 412%Z []
  else if has_execute req && String.eqb (method req) "POST" then
    match query e with
    | QReturned s h => finish s h
    | QHttpException s h => finish s h
    | QOtherException => finish 500%Z []
    end
  else if (String.eqb (method req) "PUT" || String.eqb (method req) "POST") &&
          (has_validate req ||
           String.eqb (content_type req) "application/x-nexe") then
    Passthrough (app_status e)
                (valid_hdr (validate_ok e) (app_status e) (app_headers e))
  else if has_valid req && String.eqb (method req) "GET" then
    Passthrough (app_status e)
                (valid_hdr (is_validated_ok e) (app_status e) (app_headers e))
  else Passthrough (app_status e) (app_headers e).

End Wsgi.

(* ------------------------------------------------------------------ *)
(** ** Dicts updated in place: [merge_headers] and [load_server_conf]
       (zerocloud/__init__.py 5-11, 82-92) *)

Module Conf.

(** A Python dict with string keys and values, in insertion order. *)
Notation dict := (list (string * string)).

(** [d[k] = v]: the value of an existing key is replaced where it
    stands; a new key goes to the end. *)
Fixpoint setitem (k v : string) (d : dict) : dict :=
  match d with
  | [] => [(k, v)]
  | (k', v') :: d' =>
      if String.eqb k k' then (k, v) :: d' else (k', v') :: setitem k v d'
  end.

Definition keys (d : dict) : list string := map fst d.

(** [d.update(pairs)], the pairs taken in order. *)
Definition update (d : dict) (pairs : list (string * string)) : dict :=
  fold_left (fun acc '(k, v) => setitem k v acc) pairs d.

(** One iteration of the first loop of [merge_headers]: [(final,
    mergeable)] after handling [key]. *)
Definition merge_key (new : dict) (st : dict * dict) (key : string)
  : dict * dict :=
  let '(final, mergeable) := st in
  let cur := match Py.get key mergeable with Some m => m | None => "" end in
  let v := match Py.get key new with Some x => x | None => cur end in
  let mergeable' := setitem key v mergeable in
  let final' :=
    match Py.get key final with
    | Some f => if Py.truthy f then setitem key (f ++ "," ++ v) final
                else setitem key v final
    | None => setitem key v final
    end in
  (final', mergeable').

(** [merge_headers(final, mergeable, new)]: the dicts [final] and
    [mergeable] after the call ([new] is only read).  [str()] of a
    string value is the value itself. *)
Definition merge_headers (final mergeable new : dict) : dict * dict :=
  let key_list := keys mergeable in
  let '(final1, mergeable1) :=
    fold_left (merge_key new) key_list (final, mergeable) in
  let final2 :=
    fold_left (fun acc key =>
                 if existsb (String.eqb key) key_list then acc
                 else match Py.get key new with
                      | Some v => setitem key v acc
                      | None => acc
                      end)
              (keys new) final1 in
  (final2, mergeable1).

(** [load_server_conf(conf, sections)]; [readconf] is what
    [swift.common.utils.readconf] returns for a file: its sections, each
    a dict. *)
Definition load_server_conf (readconf : string -> list (string * dict))
    (conf : dict) (sections : list string) : dict :=
  match Py.get "__file__" conf with
  | Some file =>
      if Py.truthy file then
        let server_conf := readconf file in
        fold_left (fun c sect =>
                     match Py.get sect server_conf with
                     | Some ((_ :: _) as d) => update c d
                     | _ => c
                     end)
                  sections conf
      else conf
  | None => conf
  end.

End Conf.

(* ------------------------------------------------------------------ *)
(** ** [get_zerovm_sysimage_devices] (objectquery.py 296-307) *)

Module SysImage.

(** [s.split()]: the maximal runs of non-blank characters. *)
Fixpoint split_ws (s : string) : list string :=
  match s with
  | EmptyString => []
  | String c s' =>
      let r := split_ws s' in
      if Py.is_blank c then r
      else match s' with
           | EmptyString => [String c EmptyString]
           | String c2 _ =>
               if Py.is_blank c2 then String c EmptyString :: r
               else match r with
                    | t :: r' => String c t :: r'
                    | [] => [String c EmptyString]
                    end
           end
  end.

(** [l[0::2]] and [l[1::2]] *)
Fixpoint evens {A} (l : list A) : list A :=
  match l with
  | a :: _ :: l' => a :: evens l'
  | [a] => [a]
  | [] => []
  end.

Fixpoint odds {A} (l : list A) : list A :=
  match l with
  | _ :: b :: l' => b :: odds l'
  | _ => []
  end.

(** [dict(pairs)] *)
Definition dict_of (pairs : list (string * string)) : Conf.dict :=
  Conf.update [] pairs.

Definition get_zerovm_sysimage_devices (conf : Conf.dict) : Conf.dict :=
  let devices :=
    split_ws (match Py.get "zerovm_sysimage_devices" conf with
              | Some s => s | None => "" end) in
  dict_of (combine (evens devices) (odds devices)).

End SysImage.

(* ------------------------------------------------------------------ *)
(** ** [DualReader] (objectquery.py 259-293) *)

Module Dual.

(** A file-like object being read: the bytes already read (its
    [tell()]) and the bytes left. *)
Record reader := { consumed : nat; rem : string }.

Fixpoint sdrop (n : nat) (s : string) : string :=
  match n, s with
  | O, _ => s
  | S _, EmptyString => EmptyString
  | S n', String _ s' => sdrop n' s'
  end.

(** [f.read(n)] for [n >= 0]: at most [n] bytes. *)
Definition fread (f : reader) (n : nat) : string * reader :=
  let chunk := substring 0 n (rem f) in
  (chunk, {| consumed := consumed f + String.length chunk;
             rem := sdrop n (rem f) |}).

(** [f.read()]: everything left. *)
Definition fread_all (f : reader) : string * reader :=
  (rem f, {| consumed := consumed f + String.length (rem f); rem := "" |}).

(** [DualReader(head, tail).read(amt)]: the result ([None] for Python's
    [None]) and the two readers afterwards. *)
Definition read (amt : option Z) (head tail : reader)
  : option string * reader * reader :=
  match amt with
  | None =>
      let '(a, head') := fread_all head in
      let '(b, tail') := fread_all tail in
      (Some (a ++ b), head', tail')
  | Some a =>
      if (a <? 0)%Z then (None, head, tail)
      else
        let n := Z.to_nat a in
        let '(chunk, head') := fread head n in
        if Py.truthy chunk then
          if Nat.eqb (String.length chunk) n then (Some chunk, head', tail)
          else if (String.length chunk <? n)%nat then
            let '(more, tail') := fread tail (n - String.length chunk) in
            (Some (chunk ++ more), head', tail')
          else
            let '(c, tail') := fread tail n in (Some c, head', tail')
        else
          let '(c, tail') := fread tail n in (Some c, head', tail')
  end.

(** [tell()] *)
Definition tell (head tail : reader) : nat := consumed tail.

End Dual.

(* ------------------------------------------------------------------ *)
(** ** The manifest write loop of [_create_zerovm_thread] and [validate]
    (objectquery.py 601-604, 1382-1385) *)

Module Mnfst.

(** [while zerovm_inputmnfst: written = os.write(fd, zerovm_inputmnfst);
    zerovm_inputmnfst = zerovm_inputmnfst[written:]]: [ws] are the counts
    the successive [os.write] calls return, each writing that many bytes
    from the front of what is left.  The result is the list of pieces
    written, or [None] when the counts run out before the manifest does
    (the loop would go on). *)
Fixpoint write_all (ws : list nat) (s : string) : option (list string) :=
  match s with
  | EmptyString => Some []
  | _ =>
    match ws with
    | [] => None
    | w :: ws' =>
        match write_all ws' (Dual.sdrop w s) with
        | Some l => Some (substring 0 w s :: l)
        | None => None
        end
    end
  end.

End Mnfst.

(* ================================================================== *)
(** * Properties *)

(** ** Concrete runs of the embedding *)

Example split_report_six :
  length (Py.split_max "010"%char 5 "0
0
0
/dev/stdout x
1 2 3 4 5 6 7 8 9 10
ok
more") = 6%nat.
Proof. reflexivity. Qed.

Example fmt_06x_small : Sock.size_prefix "abc" = "0x000003".
Proof. reflexivity. Qed.

Example int0_hex : Sock.int0 "0x00001a" = Some 26%Z.
Proof. reflexivity. Qed.

Example fmt3_sample : Wsgi.fmt3 12345 = "12.345".
Proof. reflexivity. Qed.

(* ------------------------------------------------------------------ *)
(** ** Channel resolution *)

Module ResolveFacts.
Import Resolve.

Definition env_py : env :=
  {| sysimage_devices := [("python", "/usr/share/zerovm/python.tar")];
     access_type := ""; rbytes := 1073741824; is_master := true;
     writable_tmpdir := "/srv/node/sda1/tmp" |}.

Definition account_lo : local_object :=
  {| lo_account := "a"; lo_container := ""; lo_obj := "";
     lo_data_file := ""; lo_content_length := 0; lo_name := "";
     lo_db_file := ""; lo_db_size := 0 |}.

Definition python_chan : chan :=
  {| device := "python"; path := None; access := ACCESS_READABLE;
     lpath := None; size := None; path_info := None |}.

Definition uploaded_python : list (string * string) :=
  [("python", "/srv/node/sda1/tmp/tmpJ0b/python")].

(** When the device is not a system-image name and the channel is
    readable (or neither writable nor networked), an uploaded file does
    win: the first block sets [lpath] and the second chain keeps it. *)
Lemma uploaded_wins_without_sysimage :
  forall e lo idx ch st f,
    Py.get (device ch) (rs_channels st) = Some f ->
    is_sysimage_device e (device ch) = false ->
    (Z.land (access ch) (Z.lor ACCESS_READABLE ACCESS_CDR) <> 0 \/
     Z.land (access ch) ACCESS_WRITABLE = 0 /\
     Z.land (access ch) ACCESS_NETWORK = 0)%Z ->
    exists ch' st', resolve_channel e lo idx ch st = Ok (ch', st') /\
                    lpath ch' = Some f.
Proof.
  intros e lo idx ch st f Hget Hsys Hacc.
  unfold resolve_channel, resolve_first. rewrite Hget.
  cbv beta iota. unfold resolve_second.
  change (device (set_lpath ch f)) with (device ch). rewrite Hsys.
  change (path (set_lpath ch f)) with (path ch).
  change (lpath (set_lpath ch f)) with (Some f).
  change (access (set_lpath ch f)) with (access ch).
  cbv beta iota. rewrite andb_false_r. cbv beta iota.
  destruct (negb (Z.land (access ch) (Z.lor ACCESS_READABLE ACCESS_CDR) =? 0)%Z)
      eqn:Hrd.
  - eexists; eexists; split; reflexivity.
  - apply negb_false_iff, Z.eqb_eq in Hrd.
    destruct Hacc as [Hr | [Hw Hn]]; [contradiction |].
    rewrite Hw, Hn. simpl.
    eexists; eexists; split; reflexivity.
Qed.

(** C1 (code_bug): a channel whose device is both an uploaded file and a
    registered system-image name resolves to the system image, not to the
    uploaded file: the system-image test is a fresh [if] that overwrites
    the [lpath] the uploaded-file branch set. *)
Theorem uploaded_file_overridden_by_sysimage :
  resolve_channels env_py account_lo uploaded_python [python_chan] =
    Ok ([set_lpath (set_lpath python_chan "/srv/node/sda1/tmp/tmpJ0b/python")
                   "/usr/share/zerovm/python.tar"],
        {| rs_channels := uploaded_python; rs_response := [];
           rs_local_channel := None; rs_tmp_counter := 0 |}) /\
  lpath (set_lpath (set_lpath python_chan "/srv/node/sda1/tmp/tmpJ0b/python")
                   "/usr/share/zerovm/python.tar")
    <> Some "/srv/node/sda1/tmp/tmpJ0b/python".
Proof. split; [vm_compute; reflexivity | simpl; congruence]. Qed.

End ResolveFacts.

(* ------------------------------------------------------------------ *)
(** ** Daemon compatibility *)

Module DaemonFacts.
Import Daemon.




Definition ch (s : string) : zchannel := {| device := s |}.

Definition node_ab : zvm_node :=
  {| exe := "swift://a/c/nexe"; channels := [ch "stdin"; ch "stdout"];
     connect := []; bind := [] |}.
Definition daemon_ba : zvm_node :=
  {| exe := "swift://a/c/nexe"; channels := [ch "stdout"; ch "stdin"];
     connect := []; bind := [] |}.
(** C2 (code bug): the daemon was configured with exactly the node's
    devices, [stdin] and [stdout], listed in the other order.  The
    docstring of [can_run_as_daemon] asks for "the same devices exactly"
    and the spec's predicate holds, yet the code answers [False]: only
    the node channels are sorted before [zip] pairs them position by
    position with the daemon channels as the daemon lists them. *)
Lemma can_run_as_daemon_rejects_reordered_devices :
  exe node_ab = exe daemon_ba /\
  connect node_ab = [] /\ bind node_ab = [] /\
  map device (sort_by_device (channels node_ab)) =
    map device (sort_by_device (channels daemon_ba)) /\
  spec_can_reuse node_ab daemon_ba /\
  can_run_as_daemon node_ab daemon_ba = false.
Proof.
  split; [reflexivity |]. split; [reflexivity |]. split; [reflexivity |].
  split; [vm_compute; reflexivity |]. split.
  - unfold spec_can_reuse. repeat split; try reflexivity.
    intros n Hn. vm_compute in Hn.
    destruct Hn as [<- | [<- | []]].
    + exists (ch "stdin"). split; [simpl; auto | reflexivity].
    + exists (ch "stdout"). split; [simpl; auto | reflexivity].
  - vm_compute. reflexivity.
Qed.


End DaemonFacts.

(* ------------------------------------------------------------------ *)
(** ** Report handling and clean-up after the run *)

Module TailFacts.
Import Tail.

Lemma split_max_length : forall sep n s,
  (length (Py.split_max sep n s) <= S n)%nat.
Proof.
  intros sep n s. revert n.
  induction s as [| c s IH]; intros n; simpl; [lia |].
  destruct n as [| m]; simpl; [lia |].
  destruct (Ascii.eqb c sep); simpl.
  - specialize (IH m). lia.
  - specialize (IH (S m)).
    destruct (Py.split_max sep (S m) s) as [| x xs]; simpl in *; lia.
Qed.

Lemma unlink_gone : forall p f, ~ In p (unlink p f).
Proof.
  intros p f H. unfold unlink in H. apply filter_In in H.
  destruct H as [_ H]. rewrite String.eqb_refl in H. discriminate.
Qed.

Lemma unlink_sub : forall p q f, In q (unlink p f) -> In q f.
Proof. intros p q f H. unfold unlink in H. apply filter_In in H. tauto. Qed.

Lemma channel_cleanup_sub : forall chs f q,
  In q (channel_cleanup chs f) -> In q f.
Proof.
  induction chs as [| ch chs IH]; intros f q H; simpl in *; [exact H |].
  apply IH in H. eapply unlink_sub; eauto.
Qed.

Lemma channel_cleanup_gone : forall chs f ch,
  In ch chs -> ~ In (rc_lpath ch) (channel_cleanup chs f).
Proof.
  induction chs as [| c chs IH]; intros f ch Hin; simpl in *; [contradiction |].
  destruct Hin as [<- | Hin].
  - intros H. apply channel_cleanup_sub in H. eapply unlink_gone; eauto.
  - apply IH; exact Hin.
Qed.

Lemma create_exec_error_shape : forall nh rc out chs f,
  let '(r, f') := create_exec_error nh rc out chs f in
  status r = 500%Z /\
  body r = "ERROR OBJ.QUERY retcode=" ++ nth (Z.to_nat rc) RETCODE_MAP "" ++
           ",  zerovm_stdout=" ++ out /\
  Py.get "x-nexe-status" (resp_headers r) = Some "ZeroVM runtime error" /\
  f' = channel_cleanup chs f.
Proof. intros. simpl. repeat split. Qed.

(** C4 (amended): the combined output (stdout, then stderr when
    non-empty) is split on LF into at most 6 fields; when fewer than 6
    result or the run code exceeds 1, [zerovm_query] returns a 500 whose
    body is ["ERROR OBJ.QUERY retcode=<name>,  zerovm_stdout=<output>"]
    and whose [x-nexe-status] header is ["ZeroVM runtime error"], and
    every response channel file has been unlinked (nothing else is
    created). *)
Theorem report_failure_is_internal_error :
  forall nh rc stdout stderr nvram chs local f,
  let out := if Py.truthy stderr then stdout ++ stderr else stdout in
  let report := Py.split_max "010"%char (REPORT_LENGTH - 1) out in
  (length report <= REPORT_LENGTH)%nat /\
  ((length report < REPORT_LENGTH)%nat \/ (rc > 1)%Z ->
   exists r f',
     after_run nh rc stdout stderr nvram chs local f = (Returned r, f') /\
     status r = 500%Z /\
     body r = "ERROR OBJ.QUERY retcode=" ++ nth (Z.to_nat rc) RETCODE_MAP "" ++
              ",  zerovm_stdout=" ++ out /\
     Py.get "x-nexe-status" (resp_headers r) = Some "ZeroVM runtime error" /\
     (forall ch, In ch chs -> ~ In (rc_lpath ch) f') /\
     (forall p, In p f' -> In p f)).
Proof.
  intros nh rc stdout stderr nvram chs local f out report.
  split; [apply split_max_length |].
  intros Hcond.
  assert (Herr : forall nh1,
    exists r f',
      (let '(r0, f1) := create_exec_error nh1 rc out chs (unlink nvram f) in
       (Returned r0, f1)) = (Returned r, f') /\
      status r = 500%Z /\
      body r = "ERROR OBJ.QUERY retcode=" ++ nth (Z.to_nat rc) RETCODE_MAP "" ++
               ",  zerovm_stdout=" ++ out /\
      Py.get "x-nexe-status" (resp_headers r) = Some "ZeroVM runtime error" /\
      (forall ch, In ch chs -> ~ In (rc_lpath ch) f') /\
      (forall p, In p f' -> In p f)).
  { intros nh1. do 2 eexists. split; [reflexivity |].
    simpl. repeat split.
    - intros ch Hch. apply channel_cleanup_gone; exact Hch.
    - intros p Hp. apply channel_cleanup_sub in Hp.
      eapply unlink_sub; eauto. }
  unfold after_run. fold out. fold report.
  destruct (if Nat.eqb (length report) REPORT_LENGTH
            then parse_zerovm_report nh report else (nh, true))
    as [nh1 parsed] eqn:Hp.
  destruct parsed; cbn [negb].
  2:{ apply Herr. }
  assert (Hgo : ((rc >? 1)%Z || (length report <? REPORT_LENGTH)%nat) = true).
  { destruct Hcond as [H | H].
    - apply orb_true_iff; right. apply Nat.ltb_lt; exact H.
    - apply orb_true_iff; left. apply Z.gtb_lt; lia. }
  rewrite Hgo. apply Herr.
Qed.

Definition short_stdout : string := "zerovm: unable to open manifest".

(** The amended C4 theorem applied to a one-line output with run code 1. *)
Lemma report_failure_witness :
  (length (Py.split_max "010"%char (REPORT_LENGTH - 1) short_stdout)
     < REPORT_LENGTH)%nat /\
  exists r f',
    after_run initial_nexe_headers 1 short_stdout "" "/tmp/tmpNv" [] None
              ["/tmp/tmpNv"] = (Returned r, f') /\
    status r = 500%Z.
Proof.
  assert (Hlt : (length (Py.split_max "010"%char (REPORT_LENGTH - 1)
                   short_stdout) < REPORT_LENGTH)%nat)
    by (vm_compute; lia).
  split; [exact Hlt |].
  pose proof (report_failure_is_internal_error initial_nexe_headers 1
                short_stdout "" "/tmp/tmpNv" [] None ["/tmp/tmpNv"]) as H.
  cbv zeta in H. destruct H as [_ H].
  specialize (H (or_introl Hlt)).
  destruct H as [r [f' [H1 [H2 _]]]].
  exists r, f'. split; assumption.
Defined.

(** C4 (counterexample): a one-line output with run code 1 gives the
    500 of [_create_exec_error], but its [x-nexe-status] header carries
    the fixed text ["ZeroVM runtime error"], not the raw output. *)
Lemma exec_error_status_not_stdout :
  exists r f',
    after_run initial_nexe_headers 1 short_stdout "" "/tmp/tmpNv" [] None
              ["/tmp/tmpNv"] = (Returned r, f') /\
    status r = 500%Z /\
    Py.get "x-nexe-status" (resp_headers r) = Some "ZeroVM runtime error" /\
    Py.contains short_stdout "ZeroVM runtime error" = false.
Proof.
  do 2 eexists. split; [vm_compute; reflexivity |].
  vm_compute. repeat split.
Qed.

Definition good_report : string :=
  "0
0
0
/dev/stdout d41d8cd98f00b204e9800998ecf8427e
0 0 0 0 0 0 0 0 0 0
ok
".

Definition out_chan : rchan :=
  {| rc_device := "stdout"; rc_lpath := "/srv/node/sda1/tmp/tmpOut" |}.

Definition local_output : local_write :=
  {| lw_lpath := "/srv/node/sda1/tmp/tmpObj";
     lw_content_type := "application/octet-stream";
     lw_size := 5; lw_offset := 0; lw_access := Resolve.ACCESS_WRITABLE;
     lw_channel_device := "/dev/output";
     lw_new_timestamp := "1700000000.00000";
     lw_file_md5 := "5d41402abc4b2a76b9719d911017c592";
     lw_rewrite_tmp := "/srv/node/sda1/tmp/tmpNew";
     lw_no_space := false |}.

(** C3 (code_bug): the sandbox run succeeds with a well-formed report
    whose etag line has no entry for the local object's device
    [/dev/output]; [_finalize_local_file] raises 422 and the temp file of
    the response channel [stdout] is still on disk. *)
Theorem finalize_failure_keeps_response_files :
  after_run initial_nexe_headers 0 good_report "" "/tmp/tmpNv" [out_chan]
            (Some local_output)
            ["/srv/node/sda1/tmp/tmpOut"; "/srv/node/sda1/tmp/tmpObj";
             "/tmp/tmpNv"]
  = (Raised 422 "No etag found for resulting object after writing channel /dev/output data",
     ["/srv/node/sda1/tmp/tmpOut"; "/srv/node/sda1/tmp/tmpObj"]) /\
  In (rc_lpath out_chan)
     ["/srv/node/sda1/tmp/tmpOut"; "/srv/node/sda1/tmp/tmpObj"].
Proof. split; [vm_compute; reflexivity | simpl; auto]. Qed.

End TailFacts.

(* ------------------------------------------------------------------ *)
(** ** Ingest preconditions *)

Module IngestFacts.
Import Ingest.

Fixpoint sum_len (l : list chunk) : Z :=
  match l with [] => 0%Z | c :: l' => (chunk_len c + sum_len l')%Z end.

(** Every chunk of [l] is non-empty and passes the three per-chunk
    checks of the body loop, starting at body position [pos]. *)
Fixpoint chunks_pass (nd : node) (exp pos : Z) (l : list chunk) : Prop :=
  match l with
  | [] => True
  | c :: l' =>
      (0 < chunk_len c)%Z /\ (pos + chunk_len c <= rbytes nd)%Z /\
      (chunk_time c <= exp)%Z /\ chunk_untar_ok c = true /\
      chunks_pass nd exp (pos + chunk_len c)%Z l'
  end.

(** [Content-Length] is absent or parses to at most [rbytes]. *)
Definition cl_ok (req : request) (nd : node) : Prop :=
  h_content_length req = None \/
  exists s n, h_content_length req = Some s /\ Py.int s = Some n /\
              (n <= rbytes nd)%Z.

Definition tar_type (req : request) : Prop :=
  exists ct, h_content_type req = Some ct /\ In ct TAR_MIMES.

Lemma gtb_false : forall a b : Z, (a <= b)%Z -> (a >? b)%Z = false.
Proof. intros a b H. rewrite Z.gtb_ltb. apply Z.ltb_ge. exact H. Qed.

Lemma gtb_true : forall a b : Z, (b < a)%Z -> (a >? b)%Z = true.
Proof. intros a b H. rewrite Z.gtb_ltb. apply Z.ltb_lt. exact H. Qed.

Lemma body_loop_app : forall nd exp pre pos rest,
  chunks_pass nd exp pos pre ->
  body_loop nd exp pos (pre ++ rest) =
  body_loop nd exp (pos + sum_len pre)%Z rest.
Proof.
  intros nd exp pre. induction pre as [| c pre IH]; intros pos rest Hp.
  - simpl. rewrite Z.add_0_r. reflexivity.
  - destruct Hp as [Hlen [Hr [Ht [Hu Hp]]]].
    simpl.
    replace (chunk_len c <=? 0)%Z with false by (symmetry; apply Z.leb_gt; lia).
    rewrite (gtb_false (pos + chunk_len c) (rbytes nd)) by lia.
    rewrite (gtb_false (chunk_time c) exp) by lia.
    rewrite Hu. simpl. rewrite IH by exact Hp.
    f_equal. lia.
Qed.

Lemma existsb_tar : forall ct, In ct TAR_MIMES ->
  existsb (String.eqb ct) TAR_MIMES = true.
Proof.
  intros ct Hin. apply existsb_exists. exists ct.
  split; [exact Hin | apply String.eqb_refl].
Qed.

(** Past the header checks, [ingest] continues with the object checks
    and the body. *)
Lemma ingest_after_headers : forall req nd,
  opt_truthy (h_zerocloud_id req) = true -> cl_ok req nd -> tar_type req ->
  exists cl,
    ingest req nd =
    match object_checks req nd with
    | Some (s, b) => Raise s b
    | None =>
      match body_loop nd (start_time nd + max_upload_time nd) 0 (req_body req) with
      | Raise s b => Raise s b
      | Ingested pos =>
          match cl with
          | Some n =>
              if (pos <? n)%Z then Raise 499 "Client Disconnect"
              else if (pos >? n)%Z then
                Raise 400 "Actual content length is greater than the 'Content-Length' header"
              else Ingested pos
          | None => Ingested pos
          end
      end
    end /\
    (forall s, h_content_length req = Some s -> Py.int s = cl).
Proof.
  intros req nd Hid Hcl [ct [Hct Hin]].
  unfold ingest. rewrite Hid. cbn [negb].
  destruct Hcl as [Hn | [s [n [Hs [Hi Hle]]]]].
  - exists None. rewrite Hn. cbn iota beta. rewrite Hct, existsb_tar by exact Hin.
    split; [reflexivity | intros s Hs; discriminate].
  - exists (Some n). rewrite Hs. cbn iota beta. rewrite Hi. cbn [option_map].
    cbn iota beta. rewrite (gtb_false n (rbytes nd)) by lia.
    rewrite Hct, existsb_tar by exact Hin.
    split; [reflexivity |]. intros s' Hs'.
    assert (s' = s) as -> by congruence. exact Hi.
Qed.

Lemma body_loop_all : forall nd exp pos l,
  chunks_pass nd exp pos l ->
  body_loop nd exp pos l = Ingested (pos + sum_len l)%Z.
Proof.
  intros nd exp pos l Hp.
  pose proof (body_loop_app nd exp l pos [] Hp) as H.
  rewrite app_nil_r in H. rewrite H. reflexivity.
Qed.

Lemma not_tar_rejected : forall ct,
  ~ In ct TAR_MIMES -> existsb (String.eqb ct) TAR_MIMES = false.
Proof.
  intros ct Hn. destruct (existsb (String.eqb ct) TAR_MIMES) eqn:E; [|reflexivity].
  apply existsb_exists in E. destruct E as [x [Hx Heq]].
  apply String.eqb_eq in Heq. subst x. contradiction.
Qed.

(** A request the spec's list would answer with 400 (no [Content-Type])
    but whose [Content-Length] is over [rbytes]. *)
Definition big_untyped : request := {|
  h_zerocloud_id := Some "job-1";
  h_content_length := Some "2048";
  h_content_type := None;
  h_access := None; h_colocated := None; h_pool := None;
  h_timestamp_is_float := false;
  url_container := ""; url_obj := "";
  req_body := [] |}.

Definition small_node : node := {|
  rbytes := 1024; max_upload_time := 60; start_time := 0;
  device_available := true; disk_file_exists := true;
  container_deleted := false; pools := ["default"]; pool_can_spawn := true |}.

(** An object request whose device is unavailable and whose
    [x-nexe-colocated] header is present but empty. *)
Definition colocated_empty : request := {|
  h_zerocloud_id := Some "job-1";
  h_content_length := None;
  h_content_type := Some "application/x-tar";
  h_access := Some "GET"; h_colocated := Some ""; h_pool := None;
  h_timestamp_is_float := false;
  url_container := "c"; url_obj := "o";
  req_body := [] |}.

Definition node_down : node := {|
  rbytes := 1024; max_upload_time := 60; start_time := 0;
  device_available := false; disk_file_exists := false;
  container_deleted := false; pools := ["default"]; pool_can_spawn := true |}.

(** Claim C5 (counterexample): a request with an [x-zerocloud-id], no
    [Content-Type] and a [Content-Length] of 2048 on a node with
    [rbytes] = 1024 is answered 413, not the 400 listed for an absent
    [Content-Type]: the [Content-Length] check comes first. *)
Lemma ingest_missing_type_gives_413 :
  h_content_type big_untyped = None /\
  ingest big_untyped small_node = Raise 413 "RPC request too large".
Proof. split; reflexivity. Qed.

(** Claim C5 (amended): the ingest checks and their statuses, each
    under the earlier checks passing.  A missing or empty
    [x-zerocloud-id] gives 500; a [Content-Length] over [rbytes] gives
    413; otherwise an absent or non-tar [Content-Type] gives 400.  With
    the headers accepted and the object and pool checks passing, the
    first chunk of the body that takes the position over [rbytes] gives
    413, and a chunk read after the expiration time within [rbytes]
    gives 408; a body that passes every chunk check and is shorter than
    [Content-Length] gives 499, longer gives 400.  With an id present,
    a [Content-Length] that [int()] cannot parse gives 500, whatever
    the [Content-Type]. *)
Theorem ingest_check_order : forall req nd,
  let exp := (start_time nd + max_upload_time nd)%Z in
  (opt_truthy (h_zerocloud_id req) = false ->
     exists b, ingest req nd = Raise 500 b) /\
  (opt_truthy (h_zerocloud_id req) = true ->
     forall s n, h_content_length req = Some s -> Py.int s = Some n ->
     (rbytes nd < n)%Z -> exists b, ingest req nd = Raise 413 b) /\
  (opt_truthy (h_zerocloud_id req) = true -> cl_ok req nd ->
     ~ tar_type req -> exists b, ingest req nd = Raise 400 b) /\
  (opt_truthy (h_zerocloud_id req) = true -> cl_ok req nd -> tar_type req ->
     object_checks req nd = None ->
     forall pre c post, req_body req = (pre ++ c :: post)%list ->
     chunks_pass nd exp 0 pre -> (0 < chunk_len c)%Z ->
     ((rbytes nd < sum_len pre + chunk_len c)%Z ->
        exists b, ingest req nd = Raise 413 b) /\
     ((sum_len pre + chunk_len c <= rbytes nd)%Z -> (exp < chunk_time c)%Z ->
        exists b, ingest req nd = Raise 408 b)) /\
  (opt_truthy (h_zerocloud_id req) = true -> cl_ok req nd -> tar_type req ->
     object_checks req nd = None -> chunks_pass nd exp 0 (req_body req) ->
     forall s n, h_content_length req = Some s -> Py.int s = Some n ->
     ((sum_len (req_body req) < n)%Z -> exists b, ingest req nd = Raise 499 b) /\
     ((n < sum_len (req_body req))%Z -> exists b, ingest req nd = Raise 400 b)) /\
  (opt_truthy (h_zerocloud_id req) = true ->
     forall s, h_content_length req = Some s -> Py.int s = None ->
     exists b, ingest req nd = Raise 500 b).
Proof.
  intros req nd exp. split; [| split; [| split; [| split; [| split]]]].
  - intros Hid. unfold ingest. rewrite Hid. eexists. reflexivity.
  - intros Hid s n Hs Hi Hgt. unfold ingest. rewrite Hid, Hs. cbn [negb].
    cbn iota beta. rewrite Hi. cbn [option_map]. cbn iota beta.
    rewrite (gtb_true n (rbytes nd)) by lia. eexists. reflexivity.
  - intros Hid Hcl Hnt. unfold ingest. rewrite Hid. cbn [negb].
    assert (Hct : match h_content_type req with
                  | None => True
                  | Some ct => existsb (String.eqb ct) TAR_MIMES = false
                  end).
    { destruct (h_content_type req) as [ct |] eqn:E; [| exact I].
      apply not_tar_rejected. intros Hin. apply Hnt. exists ct. auto. }
    destruct Hcl as [Hn | [s [n [Hs [Hi Hle]]]]].
    + rewrite Hn. cbn iota beta.
      destruct (h_content_type req) as [ct |]; [rewrite Hct |];
        eexists; reflexivity.
    + rewrite Hs. cbn iota beta. rewrite Hi. cbn [option_map]. cbn iota beta.
      rewrite (gtb_false n (rbytes nd)) by lia.
      destruct (h_content_type req) as [ct |]; [rewrite Hct |];
        eexists; reflexivity.
  - intros Hid Hcl Htar Hoc pre c post Hb Hp Hlen.
    destruct (ingest_after_headers req nd Hid Hcl Htar) as [cl [Heq _]].
    rewrite Heq, Hoc. cbn iota beta. fold exp. rewrite Hb.
    rewrite body_loop_app by exact Hp. cbn [body_loop].
    replace (chunk_len c <=? 0)%Z with false by (symmetry; apply Z.leb_gt; lia).
    split.
    + intros Hgt. rewrite (gtb_true (0 + sum_len pre + chunk_len c) (rbytes nd))
        by lia. eexists. reflexivity.
    + intros Hle Ht.
      rewrite (gtb_false (0 + sum_len pre + chunk_len c) (rbytes nd)) by lia.
      rewrite (gtb_true (chunk_time c) exp) by lia. eexists. reflexivity.
  - intros Hid Hcl Htar Hoc Hp s n Hs Hi.
    destruct (ingest_after_headers req nd Hid Hcl Htar) as [cl [Heq Hcl']].
    rewrite (Hcl' s Hs) in Hi. subst cl.
    rewrite Heq, Hoc. cbn iota beta. fold exp.
    rewrite body_loop_all by exact Hp. cbn iota beta.
    split.
    + intros Hlt. replace (0 + sum_len (req_body req) <? n)%Z with true
        by (symmetry; apply Z.ltb_lt; lia). eexists. reflexivity.
    + intros Hgt. replace (0 + sum_len (req_body req) <? n)%Z with false
        by (symmetry; apply Z.ltb_ge; lia).
      rewrite (gtb_true (0 + sum_len (req_body req)) n) by lia.
      eexists. reflexivity.
  - intros Hid s Hs Hi. unfold ingest. rewrite Hid, Hs. cbn [negb].
    cbn iota beta. rewrite Hi. cbn [option_map]. eexists. reflexivity.
Qed.

(** The amended C5 at a request with an id, a [Content-Length] of 10
    and no [Content-Type]: 400. *)
Definition small_untyped : request := {|
  h_zerocloud_id := Some "job-1";
  h_content_length := Some "10";
  h_content_type := None;
  h_access := None; h_colocated := None; h_pool := None;
  h_timestamp_is_float := false;
  url_container := ""; url_obj := "";
  req_body := [] |}.

(** And at a request whose [Content-Length] is ["ten"]: 500. *)
Definition garbled_length : request := {|
  h_zerocloud_id := Some "job-1";
  h_content_length := Some "ten";
  h_content_type := None;
  h_access := None; h_colocated := None; h_pool := None;
  h_timestamp_is_float := false;
  url_container := ""; url_obj := "";
  req_body := [] |}.

Lemma ingest_check_order_witness :
  (exists b, ingest small_untyped small_node = Raise 400 b) /\
  (exists b, ingest garbled_length small_node = Raise 500 b).
Proof.
  split.
  - destruct (ingest_check_order small_untyped small_node) as [_ [_ [H _]]].
    apply H.
    + reflexivity.
    + right. exists "10", 10%Z. split; [reflexivity | split; [vm_compute; reflexivity | cbn; lia]].
    + intros [ct [Hct _]]. discriminate Hct.
  - destruct (ingest_check_order garbled_length small_node)
      as [_ [_ [_ [_ [_ H]]]]].
    apply (H eq_refl "ten"); [reflexivity | vm_compute; reflexivity].
Defined.

(** Claim C9 (counterexample): the request carries an
    [x-nexe-colocated] header, but its value is empty, and the answer
    is 507, not 404: the code tests the header's truthiness. *)
Lemma colocated_empty_gives_507 :
  h_colocated colocated_empty = Some "" /\
  ingest colocated_empty node_down = Raise 507 "Insufficient Storage".
Proof. split; reflexivity. Qed.

(** Claim C9 (amended): for a request that passes the header checks and
    names an object whose device is unavailable, [zerovm_query] answers
    404 when [x-nexe-colocated] is present with a non-empty value, and
    507 when it is absent or empty. *)
Theorem device_unavailable_status : forall req nd,
  opt_truthy (h_zerocloud_id req) = true -> cl_ok req nd -> tar_type req ->
  Py.truthy (url_obj req) = true -> device_available nd = false ->
  (opt_truthy (h_colocated req) = true ->
     ingest req nd = Raise 404 "Not Found") /\
  (opt_truthy (h_colocated req) = false ->
     ingest req nd = Raise 507 "Insufficient Storage").
Proof.
  intros req nd Hid Hcl Htar Hobj Hdev.
  destruct (ingest_after_headers req nd Hid Hcl Htar) as [cl [Heq _]].
  rewrite Heq. unfold object_checks. rewrite Hobj, Hdev. cbn [negb].
  split; intros Hc; rewrite Hc; reflexivity.
Qed.

Lemma device_unavailable_status_witness :
  ingest colocated_empty node_down = Raise 507 "Insufficient Storage".
Proof.
  apply (device_unavailable_status colocated_empty node_down).
  - reflexivity.
  - left. reflexivity.
  - exists "application/x-tar". split; [reflexivity | simpl; auto].
  - reflexivity.
  - reflexivity.
  - reflexivity.
Defined.

End IngestFacts.

(* ------------------------------------------------------------------ *)
(** ** Output caps of [execute_zerovm] *)

Module ExecFacts.
Import Exec.

Fixpoint rep (n : nat) (s : string) : string :=
  match n with O => "" | S n' => s ++ rep n' s end.

Definition block : string := rep 4096 "a".

(** A child that writes exactly [65536] bytes to stdout in sixteen
    reads, then neither closes its pipes nor dies on SIGTERM within the
    two deadlines; after [proc.kill()], [proc.communicate()] returns
    another [4096] bytes of stdout still in the pipe. *)
Definition chatty_child : child := {|
  events := repeat (Ready [(SOut, block)]) 16 ++ [Expire; Expire];
  exit_code := 0;
  exits_by_itself := false;
  dies_on_term := false;
  rest_after_kill := (block, "")
|}.

(** Claim C6 (code bug): on [chatty_child] the accumulated stdout that
    [execute_zerovm] returns is 69632 bytes, over the 65536 cap, and the
    run code is 3 (Killed), not 4 (OutputTooLong): the kill path's
    [get_final_status] appends what [proc.communicate()] returns with
    no cap check. *)
Theorem killed_output_exceeds_cap :
  let '(rc, out, _) := execute_zerovm default_caps chatty_child in
  rc = 3%Z /\ slen out = 69632%Z /\ (stdout_size default_caps < slen out)%Z.
Proof. vm_compute. repeat split; reflexivity. Qed.

End ExecFacts.

(* ------------------------------------------------------------------ *)
(** ** Framing of [send_to_socket] *)

Module SockFacts.
Import Sock.

Lemma length_append_str : forall s t : string,
  String.length (s ++ t) = (String.length s + String.length t)%nat.
Proof. induction s as [| c s IH]; intros t; simpl; [reflexivity | now rewrite IH]. Qed.

Lemma rep_length : forall n s,
  String.length (ExecFacts.rep n s) = (n * String.length s)%nat.
Proof.
  induction n as [| n IH]; intros s; [reflexivity |].
  cbn [ExecFacts.rep]. rewrite length_append_str, IH. lia.
Qed.

Lemma substring_app_prefix : forall a b n,
  (n <= String.length a)%nat -> substring 0 n (a ++ b) = substring 0 n a.
Proof.
  induction a as [| c a IH]; intros b n Hn.
  - simpl in Hn. assert (n = 0%nat) as -> by lia. simpl. destruct b; reflexivity.
  - destruct n as [| n]; [reflexivity |].
    simpl in Hn. simpl. rewrite IH by lia. reflexivity.
Qed.

(** A manifest of [2^24] bytes (16 MiB). *)
Definition big_manifest : string := ExecFacts.rep (2 ^ 24) "a".

Lemma big_manifest_length : Z.of_nat (String.length big_manifest) = 16777216%Z.
Proof.
  unfold big_manifest. rewrite rep_length. cbn [String.length].
  rewrite Nat.mul_1_r, Nat2Z.inj_pow. reflexivity.
Qed.

(** Claim C7 (code bug): for a manifest of [2^24] bytes the prefix
    ['0x%06x'] is nine bytes, [0x1000000]; the first [SIZE] = 8 bytes on
    the wire, all a reader of the 8-byte frame takes, are [0x100000],
    which [int(x, 0)] reads as 1048576, not the manifest's length. *)
Theorem size_prefix_overflows : forall p,
  let sent := fst (send_to_socket 65536 big_manifest p) in
  String.length (size_prefix big_manifest) = 9%nat /\
  substring 0 SIZE sent = "0x100000" /\
  int0 (substring 0 SIZE sent) = Some 1048576%Z /\
  Z.of_nat (String.length big_manifest) = 16777216%Z.
Proof.
  intros p sent.
  assert (Hpre : size_prefix big_manifest = "0x1000000").
  { unfold size_prefix. rewrite big_manifest_length. vm_compute. reflexivity. }
  assert (Hs : sent = size_prefix big_manifest ++ big_manifest) by reflexivity.
  rewrite Hs, Hpre, substring_app_prefix by (unfold SIZE; simpl; lia).
  split; [reflexivity |]. split; [reflexivity |].
  split; [vm_compute; reflexivity | exact big_manifest_length].
Qed.

End SockFacts.

(* ------------------------------------------------------------------ *)
(** ** Validation round trip *)

Module ValidateFacts.
Import Validate.

Lemma get_set_same : forall {A} k (v : A) d, Py.get k (Py.set k v d) = Some v.
Proof. intros A k v d. unfold Py.set. simpl. now rewrite String.eqb_refl. Qed.

Lemma get_set_other : forall {A} k k' (v : A) d,
  k <> k' -> Py.get k (Py.set k' v d) = Py.get k d.
Proof.
  intros A k k' v d Hne. unfold Py.set. simpl.
  destruct (String.eqb k k') eqn:E; [apply String.eqb_eq in E; contradiction | reflexivity].
Qed.

(** Claim C8: when [validate] returns [True] the sandbox run returned
    0, the report's validator field parsed to 0, the object's metadata
    became the old metadata with [Validated] set to its [ETag], and
    [is_validated] on the stored object then returns [True] (for an
    [ETag] that is non-empty, as the MD5 [ETag] of a stored object is);
    and [is_validated] returns [True] only when [Validated] and [ETag]
    are both present and equal. *)
Theorem validate_round_trip :
  (forall path_ok maxnexe st run st' md etag,
     object_metadata st = Some md -> Py.get "ETag" md = Some etag ->
     Py.truthy etag = true ->
     validate path_ok maxnexe st run = (VBool true, st') ->
     fst run = 0%Z /\
     Py.int (nth Tail.REPORT_VALIDATOR (Py.split_max "010"%char 1 (snd run)) "")
       = Some 0%Z /\
     object_metadata st' = Some (Py.set "Validated" etag md) /\
     is_validated path_ok st' = VBool true) /\
  (forall path_ok st,
     is_validated path_ok st = VBool true ->
     exists md v, object_metadata st = Some md /\
       Py.get "Validated" md = Some v /\ Py.get "ETag" md = Some v).
Proof.
  split.
  - intros path_ok maxnexe st [rc out] st' md etag Hm He Ht H.
    unfold validate in H.
    destruct path_ok; [| discriminate H]. cbn [negb] in H.
    destruct (device_available st) eqn:Hd; [| discriminate H]. cbn [negb] in H.
    rewrite Hm in H.
    destruct (Py.get "Content-Length" md) as [cl |]; [| discriminate H].
    destruct (Py.int cl) as [n |]; [| discriminate H].
    destruct (n >? maxnexe)%Z; [discriminate H |].
    destruct (Z.eqb rc 0) eqn:Hrc; [| discriminate H].
    destruct (Py.int (nth Tail.REPORT_VALIDATOR (Py.split_max "010"%char 1 out) ""))
      as [v |] eqn:Hv; [| discriminate H].
    destruct (Z.eqb v 0) eqn:Hv0; [| discriminate H].
    rewrite He in H. injection H as <-.
    apply Z.eqb_eq in Hrc. apply Z.eqb_eq in Hv0. subst rc v.
    split; [reflexivity |]. split; [exact Hv |]. split; [reflexivity |].
    unfold is_validated. cbn [negb put_metadata device_available object_metadata].
    rewrite Hd. cbn [negb].
    rewrite get_set_same, get_set_other by discriminate.
    rewrite He, Ht, String.eqb_refl. reflexivity.
  - intros path_ok st H. unfold is_validated in H.
    destruct path_ok; [| discriminate H].
    destruct (device_available st); [| discriminate H].
    destruct (object_metadata st) as [md |]; [| discriminate H].
    destruct (Py.get "Validated" md) as [s |] eqn:Hs; [| discriminate H].
    destruct (Py.get "ETag" md) as [e |] eqn:He; [| discriminate H].
    injection H as H. apply andb_prop in H as [_ H].
    apply String.eqb_eq in H. subst e.
    exists md, s. auto.
Qed.

Definition stored : store := {|
  device_available := true;
  object_metadata :=
    Some [("ETag", "d41d8cd98f00b204e9800998ecf8427e"); ("Content-Length", "10")]
|}.

Definition validator_run : Z * string := (0%Z, "0" ++ String "010"%char "rest").

Lemma validate_round_trip_witness :
  is_validated true (snd (validate true 1000 stored validator_run)) = VBool true.
Proof.
  destruct validate_round_trip as [H _].
  apply (H true 1000%Z stored validator_run
           (snd (validate true 1000 stored validator_run))
           [("ETag", "d41d8cd98f00b204e9800998ecf8427e"); ("Content-Length", "10")]
           "d41d8cd98f00b204e9800998ecf8427e").
  - reflexivity.
  - reflexivity.
  - reflexivity.
  - vm_compute. reflexivity.
Defined.

End ValidateFacts.

(* ------------------------------------------------------------------ *)
(** ** The CDR line in the responses of [__call__] *)

Module WsgiFacts.
Import Wsgi.

Definition CDR : string := "x-nexe-cdr-line".

Definition result_headers (r : call_result) : headers :=
  match r with Own _ h => h | Passthrough _ h => h end.

Lemma get_add_trans_time : forall ms h,
  Py.get CDR (add_trans_time ms h) =
  option_map (fun c => fmt3 ms ++ ", " ++ c) (Py.get CDR h).
Proof.
  intros ms h. unfold add_trans_time, CDR.
  destruct (Py.get "x-nexe-cdr-line" h) as [c |] eqn:E; simpl.
  - reflexivity.
  - exact E.
Qed.

Lemma get_app : forall {A} k (h : list (string * A)) k' v,
  Py.get k (h ++ [(k', v)])%list =
  match Py.get k h with
  | Some x => Some x
  | None => if String.eqb k k' then Some v else None
  end.
Proof.
  intros A k h k' v. induction h as [| [k0 v0] h IH]; simpl; [reflexivity |].
  destruct (String.eqb k k0); [reflexivity | exact IH].
Qed.

Lemma get_valid_hdr : forall ok s h,
  Py.get CDR (valid_hdr ok s h) = Py.get CDR h.
Proof.
  intros ok s h. unfold valid_hdr.
  destruct ((200 <=? s)%Z && (s <? 300)%Z && ok); [| reflexivity].
  rewrite get_app. destruct (Py.get CDR h); reflexivity.
Qed.

Lemma prefixed_differs : forall a o : string,
  a ++ ", " ++ o <> o.
Proof.
  intros a o H. apply (f_equal String.length) in H.
  rewrite !SockFacts.length_append_str in H. simpl in H. lia.
Qed.

(** Claim C10: when the wrapped object server's own headers carry no
    [x-nexe-cdr-line] (its object responses do not), every response of
    [__call__] that has the header has the value [fmt3 t ++ ", " ++ c]
    for the elapsed time [t] and some [c], which differs from [c]; for
    an execution request ([x-zerovm-execute], [POST]) [c] is the CDR
    line of the response [zerovm_query] produced. *)
Theorem cdr_line_has_elapsed_time : forall req e,
  Py.get CDR (app_headers e) = None ->
  (forall v, Py.get CDR (result_headers (call req e)) = Some v ->
     exists c, v = fmt3 (elapsed_ms e) ++ ", " ++ c /\ v <> c) /\
  (path_is_utf8 req = true -> has_execute req = true -> method req = "POST" ->
     forall s h c, (query e = QReturned s h \/ query e = QHttpException s h) ->
     Py.get CDR h = Some c ->
     Py.get CDR (result_headers (call req e)) =
       Some (fmt3 (elapsed_ms e) ++ ", " ++ c)).
Proof.
  intros req e Happ. split.
  - intros v Hv.
    assert (Hown : forall s h,
              Py.get CDR (result_headers (Own s (add_trans_time (elapsed_ms e) h)))
                = Some v ->
              exists c, v = fmt3 (elapsed_ms e) ++ ", " ++ c /\ v <> c).
    { intros s h H. cbn [result_headers] in H. rewrite get_add_trans_time in H.
      destruct (Py.get CDR h) as [c |]; [| discriminate H].
      injection H as <-. exists c. split; [reflexivity | apply prefixed_differs]. }
    unfold call in Hv.
    destruct (path_is_utf8 req); cbn [negb] in Hv; [| exact (Hown _ _ Hv)].
    destruct (has_execute req && String.eqb (method req) "POST").
    + destruct (query e); exact (Hown _ _ Hv).
    + repeat match type of Hv with
             | context [if ?b then _ else _] => destruct b
             end;
      cbn [result_headers] in Hv; rewrite ?get_valid_hdr, Happ in Hv;
      discriminate Hv.
  - intros Hu Hx Hm s h c Hq Hc. unfold call. rewrite Hu, Hx, Hm. cbn [negb andb].
    rewrite String.eqb_refl.
    destruct Hq as [Hq | Hq]; rewrite Hq; cbn [result_headers];
      rewrite get_add_trans_time, Hc; reflexivity.
Qed.

Definition exec_req : wsgi_request := {|
  path_is_utf8 := true; method := "POST"; has_execute := true;
  has_validate := false; has_valid := false; content_type := "" |}.

Definition exec_env : wsgi_env := {|
  query := QReturned 200 [("x-nexe-cdr-line", "1 2 3 4 5 6 7 8 9 10")];
  app_status := 200; app_headers := [];
  validate_ok := false; is_validated_ok := false; elapsed_ms := 1250 |}.

Lemma cdr_line_has_elapsed_time_witness :
  Py.get CDR (result_headers (call exec_req exec_env)) =
    Some (fmt3 1250 ++ ", " ++ "1 2 3 4 5 6 7 8 9 10").
Proof.
  destruct (cdr_line_has_elapsed_time exec_req exec_env) as [_ H].
  - reflexivity.
  - apply (H eq_refl eq_refl eq_refl 200%Z
             [("x-nexe-cdr-line", "1 2 3 4 5 6 7 8 9 10")]).
    + left. reflexivity.
    + reflexivity.
Defined.

End WsgiFacts.

(* ------------------------------------------------------------------ *)
(** ** Dict updates: [merge_headers] and [load_server_conf] *)

Module ConfFacts.
Import Conf.

Lemma get_setitem : forall k k' v d,
  Py.get k (setitem k' v d) = if String.eqb k k' then Some v else Py.get k d.
Proof.
  intros k k' v d. induction d as [| [k0 v0] d IH]; simpl.
  - destruct (String.eqb k k'); reflexivity.
  - destruct (String.eqb_spec k' k0) as [-> | Hne]; simpl.
    + destruct (String.eqb k k0); reflexivity.
    + rewrite IH. destruct (String.eqb_spec k k0) as [-> | Hk]; [| reflexivity].
      destruct (String.eqb_spec k0 k') as [-> | _]; [contradiction | reflexivity].
Qed.

Lemma get_snoc : forall k (l : list (string * string)) k' v,
  Py.get k (l ++ [(k', v)])%list =
  match Py.get k l with
  | Some x => Some x
  | None => if String.eqb k k' then Some v else None
  end.
Proof.
  intros k l k' v. induction l as [| [k0 v0] l IH]; simpl; [reflexivity |].
  destruct (String.eqb k k0); [reflexivity | exact IH].
Qed.

(** [d.update(pairs)] binds a key to its last value among [pairs]. *)
Lemma get_update : forall k ps d,
  Py.get k (update d ps) =
  match Py.get k (rev ps) with Some v => Some v | None => Py.get k d end.
Proof.
  intros k ps. induction ps as [| [k0 v0] ps IH]; intros d; [reflexivity |].
  change (update d ((k0, v0) :: ps)) with (update (setitem k0 v0 d) ps).
  rewrite IH. cbn [rev]. rewrite get_snoc, get_setitem.
  destruct (Py.get k (rev ps)); [reflexivity | destruct (String.eqb k k0); reflexivity].
Qed.

Lemma existsb_eqb_In : forall k l, existsb (String.eqb k) l = true <-> In k l.
Proof.
  intros k l. rewrite existsb_exists. split.
  - intros [x [Hx E]]. apply String.eqb_eq in E. subst. exact Hx.
  - intros H. exists k. split; [exact H | apply String.eqb_refl].
Qed.

Lemma get_not_key : forall k (d : dict),
  existsb (String.eqb k) (keys d) = false -> Py.get k d = None.
Proof.
  intros k d. induction d as [| [k0 v0] d IH]; simpl; [reflexivity |].
  destruct (String.eqb k k0); [discriminate | exact IH].
Qed.

Lemma get_rev_none : forall k (d : dict),
  Py.get k d = None -> Py.get k (rev d) = None.
Proof.
  intros k d. induction d as [| [k0 v0] d IH]; simpl; [reflexivity |].
  destruct (String.eqb k k0) eqn:E; [discriminate |].
  intros H. rewrite get_snoc, IH by exact H. rewrite E. reflexivity.
Qed.

Lemma get_rev_nodup : forall k (d : dict),
  NoDup (keys d) -> Py.get k (rev d) = Py.get k d.
Proof.
  intros k d. induction d as [| [k0 v0] d IH]; intros Hnd; [reflexivity |].
  inversion Hnd as [| ? ? Hn Hnd']. simpl. rewrite get_snoc, IH by exact Hnd'.
  destruct (String.eqb_spec k k0) as [-> | _].
  - rewrite get_not_key; [reflexivity |].
    destruct (existsb (String.eqb k0) (keys d)) eqn:E; [| reflexivity].
    apply existsb_eqb_In in E. contradiction.
  - destruct (Py.get k d); reflexivity.
Qed.

(** The value [merge_headers] gives a key of [mergeable]:
    [new.get(key, mergeable[key])]. *)
Definition merged_value (new mergeable : dict) (k : string) : string :=
  match Py.get k new with
  | Some x => x
  | None => match Py.get k mergeable with Some m => m | None => "" end
  end.

(** [final[key]] after the first loop: the merged value, appended after
    a comma to a non-empty old value. *)
Definition joined (old : option string) (v : string) : string :=
  match old with
  | Some f => if Py.truthy f then f ++ "," ++ v else v
  | None => v
  end.

Lemma merge_key_eq : forall new final mergeable a,
  merge_key new (final, mergeable) a =
  (setitem a (joined (Py.get a final) (merged_value new mergeable a)) final,
   setitem a (merged_value new mergeable a) mergeable).
Proof.
  intros new final mergeable a. unfold merge_key, merged_value, joined.
  destruct (Py.get a final) as [f |]; [destruct (Py.truthy f) |]; reflexivity.
Qed.

Lemma merge_loop : forall new ks final mergeable k,
  NoDup ks ->
  Py.get k (fst (fold_left (merge_key new) ks (final, mergeable))) =
    (if existsb (String.eqb k) ks
     then Some (joined (Py.get k final) (merged_value new mergeable k))
     else Py.get k final) /\
  Py.get k (snd (fold_left (merge_key new) ks (final, mergeable))) =
    (if existsb (String.eqb k) ks then Some (merged_value new mergeable k)
     else Py.get k mergeable).
Proof.
  intros new ks. induction ks as [| a ks IH]; intros final mergeable k Hnd.
  - split; reflexivity.
  - inversion Hnd as [| ? ? Hn Hnd']. cbn [fold_left]. rewrite merge_key_eq.
    destruct (IH (setitem a (joined (Py.get a final) (merged_value new mergeable a)) final)
                 (setitem a (merged_value new mergeable a) mergeable) k Hnd')
      as [H1 H2].
    rewrite H1, H2, !get_setitem.
    destruct (String.eqb_spec k a) as [-> | Hne]; simpl.
    + assert (existsb (String.eqb a) ks = false) as ->.
      { destruct (existsb (String.eqb a) ks) eqn:E; [| reflexivity].
        apply existsb_eqb_In in E. contradiction. }
      rewrite !String.eqb_refl. split; reflexivity.
    + assert (Hm : forall w, merged_value new (setitem a w mergeable) k =
                             merged_value new mergeable k).
      { intros w. unfold merged_value. rewrite get_setitem.
        destruct (String.eqb_spec k a); [contradiction | reflexivity]. }
      rewrite !Hm, (proj2 (String.eqb_neq k a) Hne). split; reflexivity.
Qed.

Lemma merge_loop2 : forall new kl k ks acc,
  Py.get k
    (fold_left (fun acc key =>
                  if existsb (String.eqb key) kl then acc
                  else match Py.get key new with
                       | Some v => setitem key v acc
                       | None => acc
                       end) ks acc) =
  if existsb (String.eqb k) ks && negb (existsb (String.eqb k) kl)
  then match Py.get k new with Some x => Some x | None => Py.get k acc end
  else Py.get k acc.
Proof.
  intros new kl k ks. induction ks as [| a ks IH]; intros acc; [reflexivity |].
  cbn [fold_left]. rewrite IH. clear IH. cbn [existsb].
  destruct (String.eqb_spec k a) as [-> | Hne]; cbn [orb].
  - destruct (existsb (String.eqb a) kl) eqn:Ekl.
    + cbn [negb]. rewrite !andb_false_r. reflexivity.
    + cbn [negb]. rewrite !andb_true_r.
      destruct (Py.get a new) as [v |] eqn:E.
      * rewrite get_setitem, String.eqb_refl.
        destruct (existsb (String.eqb a) ks); reflexivity.
      * destruct (existsb (String.eqb a) ks); reflexivity.
  - destruct (existsb (String.eqb a) kl); [reflexivity |].
    destruct (Py.get a new); [| reflexivity]. rewrite !get_setitem.
    destruct (String.eqb_spec k a); [contradiction | reflexivity].
Qed.

(** Extra (merge_headers): with the keys of [mergeable] distinct, as the
    keys of a dict are, [merge_headers] leaves in [final], for a key of
    [mergeable], its old non-empty value, a comma and
    [new.get(key, mergeable[key])] (just that value when the old one is
    missing or empty); for another key, the value of [new] if it has one,
    else the old value.  [mergeable] ends up holding
    [new.get(key, mergeable[key])] for each of its keys. *)
Theorem merge_headers_lookup : forall final mergeable new,
  NoDup (keys mergeable) ->
  forall k,
  Py.get k (fst (merge_headers final mergeable new)) =
    (if existsb (String.eqb k) (keys mergeable)
     then Some (joined (Py.get k final) (merged_value new mergeable k))
     else match Py.get k new with Some x => Some x | None => Py.get k final end) /\
  Py.get k (snd (merge_headers final mergeable new)) =
    (if existsb (String.eqb k) (keys mergeable)
     then Some (merged_value new mergeable k) else None).
Proof.
  intros final mergeable new Hnd k. unfold merge_headers.
  destruct (merge_loop new (keys mergeable) final mergeable k Hnd) as [H1 H2].
  destruct (fold_left (merge_key new) (keys mergeable) (final, mergeable))
    as [f1 m1]. cbn [fst snd] in *.
  rewrite merge_loop2, H1, H2.
  destruct (existsb (String.eqb k) (keys mergeable)) eqn:Ek.
  - rewrite andb_false_r. split; reflexivity.
  - rewrite (get_not_key k mergeable Ek). split; [| reflexivity].
    rewrite andb_true_r.
    destruct (existsb (String.eqb k) (keys new)) eqn:En; [reflexivity |].
    rewrite (get_not_key k new En). reflexivity.
Qed.

Definition w_final : dict := [("x-nexe-retcode", "0")].
Definition w_mergeable : dict := [("x-nexe-retcode", "0"); ("x-nexe-status", "ok")].
Definition w_new : dict := [("x-nexe-retcode", "1"); ("x-nexe-etag", "e")].

Lemma merge_headers_lookup_witness :
  Py.get "x-nexe-retcode" (fst (merge_headers w_final w_mergeable w_new)) =
    Some "0,1".
Proof.
  destruct (merge_headers_lookup w_final w_mergeable w_new) with
    (k := "x-nexe-retcode") as [H _].
  - repeat constructor; simpl; intuition discriminate.
  - rewrite H. vm_compute. reflexivity.
Defined.

(** One iteration of the loop of [load_server_conf]. *)
Definition conf_step (server_conf : list (string * dict)) (c : dict)
    (sect : string) : dict :=
  match Py.get sect server_conf with
  | Some ((_ :: _) as d) => update c d
  | _ => c
  end.

Lemma load_server_conf_fold : forall readconf conf sections file,
  Py.get "__file__" conf = Some file -> Py.truthy file = true ->
  load_server_conf readconf conf sections =
  fold_left (conf_step (readconf file)) sections conf.
Proof.
  intros readconf conf sections file Hf Ht. unfold load_server_conf.
  rewrite Hf, Ht. reflexivity.
Qed.

Lemma conf_fold_untouched : forall sc k secs c,
  (forall s d, In s secs -> Py.get s sc = Some d -> Py.get k d = None) ->
  Py.get k (fold_left (conf_step sc) secs c) = Py.get k c.
Proof.
  intros sc k secs. induction secs as [| a secs IH]; intros c H; [reflexivity |].
  cbn [fold_left]. rewrite IH by (intros s d Hs; apply H; right; exact Hs).
  unfold conf_step.
  destruct (Py.get a sc) as [[| p d] |] eqn:E; [reflexivity | | reflexivity].
  rewrite get_update, get_rev_none by (apply (H a); [left; reflexivity | exact E]).
  reflexivity.
Qed.

(** Extra (load_server_conf): when [conf] names a configuration file in
    [__file__], a key that no listed section of that file defines keeps
    its value, and a key gets the value of the last listed section that
    defines it; without a [__file__] (or with an empty one) [conf] is left
    as it is. *)
Theorem load_server_conf_lookup : forall readconf conf sections k,
  (forall file, Py.get "__file__" conf = Some file -> Py.truthy file = true ->
     ((forall s d, In s sections -> Py.get s (readconf file) = Some d ->
         Py.get k d = None) ->
      Py.get k (load_server_conf readconf conf sections) = Py.get k conf) /\
     (forall pre s post d v,
         sections = (pre ++ s :: post)%list ->
         Py.get s (readconf file) = Some d -> NoDup (keys d) ->
         Py.get k d = Some v ->
         (forall s' d', In s' post -> Py.get s' (readconf file) = Some d' ->
            Py.get k d' = None) ->
      Py.get k (load_server_conf readconf conf sections) = Some v)) /\
  ((forall file, Py.get "__file__" conf = Some file -> Py.truthy file = false) ->
   load_server_conf readconf conf sections = conf).
Proof.
  intros readconf conf sections k. split.
  - intros file Hf Ht. rewrite (load_server_conf_fold readconf conf sections file Hf Ht).
    split.
    + intros H. apply conf_fold_untouched. exact H.
    + intros pre s post d v -> Hs Hnd Hv Hpost.
      rewrite fold_left_app. cbn [fold_left].
      rewrite conf_fold_untouched by exact Hpost.
      unfold conf_step at 1. rewrite Hs.
      destruct d as [| p d']; [discriminate Hv |].
      rewrite get_update, get_rev_nodup, Hv by exact Hnd. reflexivity.
  - intros H. unfold load_server_conf.
    destruct (Py.get "__file__" conf) as [file |] eqn:Hf; [| reflexivity].
    rewrite (H file eq_refl). reflexivity.
Qed.

Definition w_readconf (file : string) : list (string * dict) :=
  [("app:object-server", [("zerovm_maxoutput", "1024")]);
   ("filter:object-query", [("zerovm_maxoutput", "4096"); ("zerovm_debug", "no")])].

Definition w_conf : dict := [("__file__", "/etc/swift/object-server.conf")].

Lemma load_server_conf_lookup_witness :
  Py.get "zerovm_maxoutput"
    (load_server_conf w_readconf w_conf ["app:object-server"; "filter:object-query"])
  = Some "4096".
Proof.
  destruct (load_server_conf_lookup w_readconf w_conf
              ["app:object-server"; "filter:object-query"] "zerovm_maxoutput")
    as [H _].
  destruct (H "/etc/swift/object-server.conf" eq_refl eq_refl) as [_ H2].
  apply (H2 ["app:object-server"] "filter:object-query" []
            [("zerovm_maxoutput", "4096"); ("zerovm_debug", "no")]).
  - reflexivity.
  - reflexivity.
  - repeat constructor; simpl; intuition discriminate.
  - reflexivity.
  - intros s' d' [].
Defined.

End ConfFacts.

(* ------------------------------------------------------------------ *)
(** ** [get_zerovm_sysimage_devices] *)

Module SysImageFacts.
Import SysImage.

Fixpoint no_blank (s : string) : bool :=
  match s with
  | EmptyString => true
  | String c s' => negb (Py.is_blank c) && no_blank s'
  end.

(** A word of [s.split()]: non-empty, without blanks. *)
Definition token (t : string) : Prop := Py.truthy t = true /\ no_blank t = true.

(** The setting written for a list of (name, path) pairs. *)
Definition join (ps : list (string * string)) : string :=
  String.concat " " (flat_map (fun p => [fst p; snd p]) ps).

Lemma split_ws_cons : forall c s, Py.is_blank c = false ->
  exists t r, split_ws (String c s) = t :: r.
Proof.
  intros c s Hc. cbn [split_ws]. rewrite Hc.
  destruct s as [| c2 s']; [eexists; eexists; reflexivity |].
  destruct (Py.is_blank c2); [eexists; eexists; reflexivity |].
  destruct (split_ws (String c2 s')); eexists; eexists; reflexivity.
Qed.

Lemma split_ws_app_blank : forall a c b, Py.is_blank c = true ->
  split_ws (a ++ String c b) = (split_ws a ++ split_ws b)%list.
Proof.
  intros a c b Hc. induction a as [| c1 a IH].
  - cbn. rewrite Hc. reflexivity.
  - cbn [append split_ws]. rewrite IH.
    destruct (Py.is_blank c1) eqn:H1; [reflexivity |].
    destruct a as [| c2 a']; cbn [append].
    + rewrite Hc. reflexivity.
    + destruct (Py.is_blank c2) eqn:H2; [reflexivity |].
      destruct (split_ws_cons c2 a' H2) as [t [r E]]. rewrite E. reflexivity.
Qed.

Lemma split_ws_token : forall t, token t -> split_ws t = [t].
Proof.
  intros t [Ht Hn]. induction t as [| c t IH]; [discriminate Ht |].
  cbn [no_blank] in Hn. apply andb_prop in Hn as [Hc Hn].
  apply negb_true_iff in Hc. cbn [split_ws]. rewrite Hc.
  destruct t as [| c2 t']; [reflexivity |].
  assert (Hc2 : Py.is_blank c2 = false).
  { cbn [no_blank] in Hn. apply andb_prop in Hn as [H _].
    apply negb_true_iff. exact H. }
  rewrite Hc2, IH by (reflexivity || exact Hn). reflexivity.
Qed.

Lemma split_ws_concat : forall toks, Forall token toks ->
  split_ws (String.concat " " toks) = toks.
Proof.
  induction toks as [| t toks IH]; intros H; [reflexivity |].
  inversion H as [| ? ? Ht Hr]; subst.
  destruct toks as [| t2 toks'].
  - apply split_ws_token. exact Ht.
  - change (String.concat " " (t :: t2 :: toks'))
      with (t ++ String " " (String.concat " " (t2 :: toks'))).
    rewrite split_ws_app_blank by reflexivity.
    rewrite split_ws_token by exact Ht. rewrite IH by exact Hr. reflexivity.
Qed.

Lemma evens_odds_cons : forall {A} (l : list A) a,
  evens (a :: l) = a :: odds l /\ odds (a :: l) = evens l.
Proof.
  intros A l. induction l as [| b l IH]; intros a; [split; reflexivity |].
  destruct (IH b) as [H1 H2]. split.
  - rewrite H2. reflexivity.
  - rewrite H1. reflexivity.
Qed.

Lemma evens_odds_app : forall {A} (l x : list A),
  (Nat.even (length l) = true ->
     evens (l ++ x)%list = (evens l ++ evens x)%list /\
     odds (l ++ x)%list = (odds l ++ odds x)%list) /\
  (Nat.even (length l) = false ->
     evens (l ++ x)%list = (evens l ++ odds x)%list /\
     odds (l ++ x)%list = (odds l ++ evens x)%list).
Proof.
  intros A l x. induction l as [| a l IH]; [split; intros H; [split; reflexivity | discriminate H] |].
  destruct (evens_odds_cons (l ++ x) a) as [E1 E2].
  destruct (evens_odds_cons l a) as [F1 F2].
  cbn [length app]. rewrite E1, E2, F1, F2, Nat.even_succ, <- Nat.negb_even.
  destruct IH as [IHe IHo].
  destruct (Nat.even (length l)) eqn:Ev; cbn [negb]; split; intros H; try discriminate H.
  - destruct (IHe eq_refl) as [G1 G2]. rewrite G1, G2. split; reflexivity.
  - destruct (IHo eq_refl) as [G1 G2]. rewrite G1, G2. split; reflexivity.
Qed.

Lemma evens_odds_length : forall {A} (l : list A),
  Nat.even (length l) = true -> length (evens l) = length (odds l).
Proof.
  intros A l.
  assert (H : (Nat.even (length l) = true -> length (evens l) = length (odds l)) /\
              (Nat.even (length l) = false -> length (evens l) = S (length (odds l)))).
  { induction l as [| a l IH]; [split; intros H; [reflexivity | discriminate H] |].
    destruct (evens_odds_cons l a) as [F1 F2]. rewrite F1, F2.
    cbn [length]. rewrite Nat.even_succ, <- Nat.negb_even.
    destruct IH as [IHe IHo].
    destruct (Nat.even (length l)); cbn [negb]; split; intros H; try discriminate H.
    - rewrite IHe; reflexivity.
    - rewrite IHo; reflexivity. }
  apply H.
Qed.

Lemma combine_app : forall {A B} (a c : list A) (b d : list B),
  length a = length b ->
  combine (a ++ c)%list (b ++ d)%list = (combine a b ++ combine c d)%list.
Proof.
  intros A B a. induction a as [| x a IH]; intros c b d H;
    destruct b as [| y b]; try discriminate H; [reflexivity |].
  cbn. rewrite IH by (injection H; auto). reflexivity.
Qed.

Lemma combine_extra : forall {A B} (a c : list A) (b : list B),
  length a = length b -> combine (a ++ c)%list b = combine a b.
Proof.
  intros A B a. induction a as [| x a IH]; intros c b H;
    destruct b as [| y b]; try discriminate H.
  - destruct c; reflexivity.
  - cbn. rewrite IH by (injection H; auto). reflexivity.
Qed.

Lemma evens_flat : forall ps : list (string * string),
  evens (flat_map (fun p => [fst p; snd p]) ps) = map fst ps /\
  odds (flat_map (fun p => [fst p; snd p]) ps) = map snd ps.
Proof.
  induction ps as [| [a b] ps IH]; [split; reflexivity |].
  destruct IH as [H1 H2]. cbn. rewrite H1, H2. split; reflexivity.
Qed.

Lemma combine_map_split : forall ps : list (string * string),
  combine (map fst ps) (map snd ps) = ps.
Proof. induction ps as [| [a b] ps IH]; cbn; [reflexivity | rewrite IH; reflexivity]. Qed.

Lemma setitem_fresh : forall k v d,
  ~ In k (Conf.keys d) -> Conf.setitem k v d = (d ++ [(k, v)])%list.
Proof.
  intros k v d. induction d as [| [k0 v0] d IH]; intros Hn; [reflexivity |].
  cbn. destruct (String.eqb_spec k k0) as [-> | _].
  - exfalso. apply Hn. left. reflexivity.
  - rewrite IH by (intros H; apply Hn; right; exact H). reflexivity.
Qed.

Lemma update_fresh : forall ps d,
  NoDup (Conf.keys d ++ Conf.keys ps) -> Conf.update d ps = (d ++ ps)%list.
Proof.
  induction ps as [| [k v] ps IH]; intros d Hnd; [rewrite app_nil_r; reflexivity |].
  change (Conf.update d ((k, v) :: ps)) with (Conf.update (Conf.setitem k v d) ps).
  assert (Hk : ~ In k (Conf.keys d)).
  { intros H. apply NoDup_remove_2 in Hnd. apply Hnd. apply in_or_app. left. exact H. }
  rewrite setitem_fresh by exact Hk. rewrite IH.
  - rewrite <- app_assoc. reflexivity.
  - unfold Conf.keys in *. rewrite map_app, <- app_assoc. exact Hnd.
Qed.

Lemma dict_of_snoc : forall ps k v,
  dict_of (ps ++ [(k, v)])%list = Conf.setitem k v (dict_of ps).
Proof. intros ps k v. unfold dict_of, Conf.update. rewrite fold_left_app. reflexivity. Qed.

Lemma space_app : forall x, " " ++ x = String " " x.
Proof. reflexivity. Qed.

Lemma tokens_of_pairs : forall ps : list (string * string),
  Forall (fun p => token (fst p) /\ token (snd p)) ps ->
  Forall token (flat_map (fun p => [fst p; snd p]) ps).
Proof.
  intros ps H. apply Forall_forall. intros x Hx.
  apply in_flat_map in Hx as [p [Hp Hx]].
  rewrite Forall_forall in H. destruct (H p Hp) as [H1 H2].
  destruct Hx as [<- | [<- | []]]; assumption.
Qed.

(** Extra (get_zerovm_sysimage_devices): writing the setting
    [zerovm_sysimage_devices] as the names and paths of a list of pairs,
    separated by spaces, gives back exactly that list as the dict, when
    the names are distinct and names and paths are non-empty words
    without blanks. *)
Theorem sysimage_devices_round_trip : forall conf ps,
  Py.get "zerovm_sysimage_devices" conf = Some (join ps) ->
  Forall (fun p => token (fst p) /\ token (snd p)) ps ->
  NoDup (map fst ps) ->
  get_zerovm_sysimage_devices conf = ps.
Proof.
  intros conf ps Hc Ht Hnd. unfold get_zerovm_sysimage_devices. rewrite Hc.
  unfold join. rewrite split_ws_concat by (apply tokens_of_pairs; exact Ht).
  destruct (evens_flat ps) as [E O]. rewrite E, O, combine_map_split.
  unfold dict_of. rewrite update_fresh; [reflexivity | exact Hnd].
Qed.

Lemma sysimage_devices_round_trip_witness :
  get_zerovm_sysimage_devices
    [("zerovm_sysimage_devices", "python /usr/share/zerovm/python.tar")]
  = [("python", "/usr/share/zerovm/python.tar")].
Proof.
  apply sysimage_devices_round_trip.
  - reflexivity.
  - repeat constructor.
  - repeat constructor. simpl. tauto.
Defined.

(** Extra (get_zerovm_sysimage_devices): appending a name and a path to
    a setting that has an even number of words makes the name map to that
    path, overriding an earlier entry for it, and leaves the other names
    as they were. *)
Theorem sysimage_devices_append : forall conf conf' s n p,
  Py.get "zerovm_sysimage_devices" conf = Some s ->
  Py.get "zerovm_sysimage_devices" conf' = Some (s ++ " " ++ n ++ " " ++ p) ->
  Nat.even (length (split_ws s)) = true -> token n -> token p ->
  forall k,
  Py.get k (get_zerovm_sysimage_devices conf') =
  if String.eqb k n then Some p else Py.get k (get_zerovm_sysimage_devices conf).
Proof.
  intros conf conf' s n p Hc Hc' Hev Hn Hp k.
  unfold get_zerovm_sysimage_devices. rewrite Hc, Hc', !space_app.
  rewrite split_ws_app_blank by reflexivity.
  rewrite split_ws_app_blank by reflexivity.
  rewrite (split_ws_token p Hp), (split_ws_token n Hn).
  destruct (evens_odds_app (split_ws s) [n; p]) as [Hs _].
  destruct (Hs Hev) as [E O]. cbn [app]. rewrite E, O.
  rewrite combine_app by (apply evens_odds_length; exact Hev).
  cbn [evens odds combine]. rewrite dict_of_snoc, ConfFacts.get_setitem.
  reflexivity.
Qed.

Lemma sysimage_devices_append_witness :
  Py.get "python"
    (get_zerovm_sysimage_devices
       [("zerovm_sysimage_devices",
         "python /old/python.tar" ++ " " ++ "python" ++ " " ++ "/new/python.tar")])
  = Some "/new/python.tar".
Proof.
  rewrite (sysimage_devices_append
             [("zerovm_sysimage_devices", "python /old/python.tar")]
             [("zerovm_sysimage_devices",
               "python /old/python.tar" ++ " " ++ "python" ++ " " ++ "/new/python.tar")]
             "python /old/python.tar" "python" "/new/python.tar").
  - reflexivity.
  - reflexivity.
  - reflexivity.
  - vm_compute. reflexivity.
  - split; reflexivity.
  - split; reflexivity.
Defined.

(** Extra (get_zerovm_sysimage_devices): a last name without a path,
    after an even number of words, is ignored. *)
Theorem sysimage_devices_unpaired_ignored : forall conf conf' s n,
  Py.get "zerovm_sysimage_devices" conf = Some s ->
  Py.get "zerovm_sysimage_devices" conf' = Some (s ++ " " ++ n) ->
  Nat.even (length (split_ws s)) = true -> token n ->
  get_zerovm_sysimage_devices conf' = get_zerovm_sysimage_devices conf.
Proof.
  intros conf conf' s n Hc Hc' Hev Hn.
  unfold get_zerovm_sysimage_devices. rewrite Hc, Hc', space_app.
  rewrite split_ws_app_blank by reflexivity.
  rewrite (split_ws_token n Hn).
  destruct (evens_odds_app (split_ws s) [n]) as [Hs _].
  destruct (Hs Hev) as [E O]. rewrite E, O. cbn [evens odds].
  rewrite app_nil_r, combine_extra by (apply evens_odds_length; exact Hev).
  reflexivity.
Qed.

Lemma sysimage_devices_unpaired_ignored_witness :
  get_zerovm_sysimage_devices
    [("zerovm_sysimage_devices", "python /p.tar" ++ " " ++ "lua")]
  = get_zerovm_sysimage_devices [("zerovm_sysimage_devices", "python /p.tar")].
Proof.
  apply (sysimage_devices_unpaired_ignored _ _ "python /p.tar" "lua").
  - reflexivity.
  - reflexivity.
  - vm_compute. reflexivity.
  - split; reflexivity.
Defined.

End SysImageFacts.

(* ------------------------------------------------------------------ *)
(** ** [DualReader] *)

Module DualFacts.
Import Dual.

Lemma sub0_zero : forall s, substring 0 0 s = "".
Proof. destruct s; reflexivity. Qed.

Lemma sub0_app_long : forall a b n, String.length a <= n ->
  substring 0 n (a ++ b) = a ++ substring 0 (n - String.length a) b.
Proof.
  induction a as [| c a IH]; intros b n H.
  - cbn. rewrite Nat.sub_0_r. reflexivity.
  - destruct n as [| n]; cbn in *; [lia |]. rewrite IH by lia. reflexivity.
Qed.

Lemma sdrop_app_short : forall a b n, n <= String.length a ->
  sdrop n (a ++ b) = sdrop n a ++ b.
Proof.
  induction a as [| c a IH]; intros b n H; destruct n as [| n]; try reflexivity.
  - cbn in H. lia.
  - cbn in *. apply IH. lia.
Qed.

Lemma sdrop_app_long : forall a b n, String.length a <= n ->
  sdrop n (a ++ b) = sdrop (n - String.length a) b.
Proof.
  induction a as [| c a IH]; intros b n H.
  - cbn. rewrite Nat.sub_0_r. reflexivity.
  - destruct n as [| n]; cbn in *; [lia |]. apply IH. lia.
Qed.

Lemma sub0_length : forall s n,
  String.length (substring 0 n s) = Nat.min n (String.length s).
Proof.
  induction s as [| c s IH]; intros n; destruct n as [| n]; cbn; try reflexivity.
  rewrite IH. reflexivity.
Qed.

Lemma sub0_full : forall s n, String.length s <= n -> substring 0 n s = s.
Proof.
  induction s as [| c s IH]; intros n H; destruct n as [| n]; cbn in *;
    try reflexivity; [lia | rewrite IH by lia; reflexivity].
Qed.

Lemma sdrop_full : forall s n, String.length s <= n -> sdrop n s = "".
Proof.
  induction s as [| c s IH]; intros n H; destruct n as [| n]; cbn in *;
    try reflexivity; [lia | apply IH; lia].
Qed.

(** Extra (DualReader.read): reading [amt >= 0] bytes from the pair
    returns the first [amt] bytes of the head's rest followed by the
    tail's rest, the two readers are left with what follows those bytes,
    and the bytes consumed by both grow by the length returned. *)
Theorem dual_read_concat : forall (amt : Z) (head tail : reader),
  (0 <= amt)%Z ->
  let n := Z.to_nat amt in
  let '(r, head', tail') := read (Some amt) head tail in
  r = Some (substring 0 n (rem head ++ rem tail)) /\
  rem head' ++ rem tail' = sdrop n (rem head ++ rem tail) /\
  consumed head' + consumed tail' =
    consumed head + consumed tail
    + String.length (substring 0 n (rem head ++ rem tail)).
Proof.
  intros amt [ch rh] [ct rt] Ha n. unfold read.
  assert (Hlt : (amt <? 0)%Z = false) by (apply Z.ltb_ge; exact Ha).
  rewrite Hlt. fold n. clearbody n. cbn [rem consumed].
  unfold fread. cbn [rem consumed].
  destruct (Nat.le_gt_cases n (String.length rh)) as [Hle | Hgt].
  - rewrite SockFacts.substring_app_prefix, sdrop_app_short by exact Hle.
    assert (Hl : String.length (substring 0 n rh) = n)
      by (rewrite sub0_length; lia).
    destruct n as [| m] eqn:En.
    + rewrite !sub0_zero. cbn. cbn [rem consumed]; repeat split; try reflexivity; lia.
    + destruct rh as [| c rh']; [cbn in Hle; lia |].
      cbn [substring Py.truthy]. cbn [substring] in Hl. rewrite Hl, Nat.eqb_refl.
      cbn [String.length]. cbn [rem consumed]; repeat split; try reflexivity; lia.
  - rewrite sub0_app_long, sdrop_app_long by lia.
    rewrite (sub0_full rh n) by lia. rewrite (sdrop_full rh n) by lia.
    destruct rh as [| c rh'].
    + cbn [Py.truthy String.length append]. rewrite Nat.sub_0_r.
      cbn [rem consumed]; repeat split; try reflexivity; lia.
    + cbn [Py.truthy].
      assert (Hne : Nat.eqb (String.length (String c rh')) n = false)
        by (apply Nat.eqb_neq; lia).
      assert (Hl2 : (String.length (String c rh') <? n)%nat = true)
        by (apply Nat.ltb_lt; lia).
      rewrite Hne, Hl2. rewrite SockFacts.length_append_str.
      cbn [rem consumed]; repeat split; try reflexivity; lia.
Qed.

Lemma dual_read_concat_witness :
  (0 <= 5)%Z /\
  let '(r, h', t') := read (Some 5%Z) {| consumed := 0; rem := "abc" |}
                           {| consumed := 0; rem := "defg" |} in
  r = Some "abcde" /\ rem h' ++ rem t' = "fg" /\ consumed h' + consumed t' = 5.
Proof.
  split; [lia |].
  exact (dual_read_concat 5 {| consumed := 0; rem := "abc" |}
           {| consumed := 0; rem := "defg" |} ltac:(lia)).
Defined.

End DualFacts.

(* ------------------------------------------------------------------ *)
(** ** [execute_zerovm] *)

Module ExecFacts2.
Import Exec.

Definition within (c : caps) (out err : string) : Prop :=
  (slen out <= stdout_size c)%Z /\ (slen err <= stderr_size c)%Z.

Definition over (c : caps) (out err : string) : Prop :=
  (stdout_size c < slen out)%Z \/ (stderr_size c < slen err)%Z.

Lemma cap_check : forall c out err,
  ((slen out >? stdout_size c)%Z || (slen err >? stderr_size c)%Z = true ->
     over c out err) /\
  ((slen out >? stdout_size c)%Z || (slen err >? stderr_size c)%Z = false ->
     within c out err).
Proof.
  intros c out err. unfold over, within. rewrite !Z.gtb_ltb. split; intros H.
  - apply orb_true_iff in H as [H | H]; apply Z.ltb_lt in H; auto.
  - apply orb_false_iff in H as [H1 H2]. apply Z.ltb_ge in H1, H2. auto.
Qed.

Lemma poll_bounds : forall c evs readable out err,
  within c out err ->
  match poll c readable out err evs with
  | PCap o e => over c o e
  | PEof o e _ => within c o e
  | PExpire _ o e _ => within c o e
  end.
Proof.
  intros c evs. induction evs as [| ev evs IH]; intros readable out err Hw.
  - exact Hw.
  - destruct ev as [rs |]; [| exact Hw]. cbn [poll].
    destruct (read_from_std readable out err rs) as [[r' o'] e'].
    destruct ((slen o' >? stdout_size c)%Z || (slen e' >? stderr_size c)%Z) eqn:E.
    + apply (proj1 (cap_check c o' e')). exact E.
    + pose proof (proj2 (cap_check c o' e') E) as Hw'.
      destruct r' as [| s r'']; [exact Hw' | apply IH; exact Hw'].
Qed.

(** Extra (execute_zerovm): with non-negative caps, the run code is one
    of 0..4; code 4 (output too long) is returned only when stdout or
    stderr is over its cap, and with codes 0, 1 and 2 both are within
    their caps (only the kill path, code 3, may return more). *)
Theorem execute_zerovm_codes : forall c ch,
  (0 <= stdout_size c)%Z -> (0 <= stderr_size c)%Z ->
  let '(rc, out, err) := execute_zerovm c ch in
  (rc = 4%Z /\ over c out err) \/
  ((rc = 0%Z \/ rc = 1%Z \/ rc = 2%Z) /\ within c out err) \/
  rc = 3%Z.
Proof.
  intros c ch H1 H2. unfold execute_zerovm.
  assert (Hw : within c "" "") by (unfold within, slen; cbn; lia).
  pose proof (poll_bounds c (events ch) [SOut; SErr] "" "" Hw) as Hp.
  destruct (poll c [SOut; SErr] "" "" (events ch)) as [o e | o e evs | r o e evs].
  - left. split; [reflexivity | exact Hp].
  - destruct (exits_by_itself ch).
    + right. left. split; [| exact Hp].
      destruct (Z.eqb (exit_code ch) 0); auto.
    + destruct (dies_on_term ch); [right; left; split; [auto | exact Hp] | auto].
  - destruct r as [| s r'].
    + destruct (dies_on_term ch); [right; left; split; [auto | exact Hp] | auto].
    + pose proof (poll_bounds c evs (s :: r') o e Hp) as Hq.
      destruct (poll c (s :: r') o e evs) as [o2 e2 | o2 e2 evs2 | r2 o2 e2 evs2].
      * left. split; [reflexivity | exact Hq].
      * destruct (dies_on_term ch); [right; left; split; [auto | exact Hq] | auto].
      * auto.
Qed.

(** A child that writes two bytes to stdout, closes its pipes and exits
    with status 0. *)
Definition quiet_child : child := {|
  events := [Ready [(SOut, "ok")]; Ready [(SOut, ""); (SErr, "")]];
  exit_code := 0;
  exits_by_itself := true;
  dies_on_term := false;
  rest_after_kill := ("", "")
|}.

Lemma execute_zerovm_codes_witness :
  execute_zerovm default_caps quiet_child = (0%Z, "ok", "") /\
  let '(rc, out, err) := execute_zerovm default_caps quiet_child in
  (rc = 4%Z /\ over default_caps out err) \/
  ((rc = 0%Z \/ rc = 1%Z \/ rc = 2%Z) /\ within default_caps out err) \/
  rc = 3%Z.
Proof.
  split; [vm_compute; reflexivity |].
  apply execute_zerovm_codes; cbn; lia.
Defined.

End ExecFacts2.

(* ------------------------------------------------------------------ *)
(** ** [send_to_socket] *)

Module SockFacts2.
Import Sock.

Lemma append_nil_str : forall s : string, s ++ "" = s.
Proof. induction s as [| c s IH]; [reflexivity | cbn; rewrite IH; reflexivity]. Qed.

Lemma append_assoc_str : forall a b c : string, a ++ (b ++ c) = (a ++ b) ++ c.
Proof. induction a as [| x a IH]; intros b c; [reflexivity | cbn; rewrite IH; reflexivity]. Qed.

Lemma rev_string_app : forall a b,
  Py.rev_string (a ++ b) = Py.rev_string b ++ Py.rev_string a.
Proof.
  induction a as [| c a IH]; intros b.
  - cbn. rewrite append_nil_str. reflexivity.
  - cbn. rewrite IH, append_assoc_str. reflexivity.
Qed.

Lemma rev_string_involutive : forall s, Py.rev_string (Py.rev_string s) = s.
Proof.
  induction s as [| c s IH]; [reflexivity |].
  cbn [Py.rev_string]. rewrite rev_string_app, IH. reflexivity.
Qed.

Lemma no_blank_app : forall a b,
  SysImageFacts.no_blank (a ++ b) =
  SysImageFacts.no_blank a && SysImageFacts.no_blank b.
Proof.
  induction a as [| c a IH]; intros b; [reflexivity |].
  cbn. rewrite IH, andb_assoc. reflexivity.
Qed.

Lemma no_blank_rev : forall s,
  SysImageFacts.no_blank (Py.rev_string s) = SysImageFacts.no_blank s.
Proof.
  induction s as [| c s IH]; [reflexivity |].
  cbn [Py.rev_string]. rewrite no_blank_app, IH. cbn.
  rewrite andb_true_r, andb_comm. reflexivity.
Qed.

Lemma strip_left_no_blank : forall s,
  SysImageFacts.no_blank s = true -> Py.strip_left s = s.
Proof.
  intros [| c s] H; [reflexivity |]. cbn in H. apply andb_prop in H as [H _].
  apply negb_true_iff in H. cbn. rewrite H. reflexivity.
Qed.

Lemma strip_no_blank : forall s,
  SysImageFacts.no_blank s = true -> Py.strip s = s.
Proof.
  intros s H. unfold Py.strip. rewrite (strip_left_no_blank s H).
  rewrite strip_left_no_blank by (rewrite no_blank_rev; exact H).
  apply rev_string_involutive.
Qed.

Lemma hex_char : forall d, (d < 16)%nat ->
  digit_in 16 (if (d <? 10)%nat then ascii_of_nat (48 + d)
               else ascii_of_nat (87 + d)) = Some (Z.of_nat d) /\
  Py.is_blank (if (d <? 10)%nat then ascii_of_nat (48 + d)
               else ascii_of_nat (87 + d)) = false.
Proof.
  intros d Hd. do 16 (destruct d as [| d]; [split; reflexivity |]). lia.
Qed.

Lemma mod16 : forall n : Z,
  (Z.to_nat (n mod 16) < 16)%nat /\ Z.of_nat (Z.to_nat (n mod 16)) = (n mod 16)%Z.
Proof.
  intros n. pose proof (Z.mod_pos_bound n 16 ltac:(lia)) as Hb.
  split; [lia | apply Z2Nat.id; lia].
Qed.

Lemma hex_value : forall fuel n acc,
  (0 <= n)%Z -> (n < 16 ^ Z.of_nat fuel)%Z ->
  digits_in_acc 16 0 (hex_digits_aux fuel n acc) = digits_in_acc 16 n acc.
Proof.
  induction fuel as [| fuel IH]; intros n acc H0 H1.
  - cbn in H1. assert (n = 0%Z) as -> by lia. reflexivity.
  - cbn [hex_digits_aux].
    destruct (mod16 n) as [Hd Hz]. destruct (hex_char _ Hd) as [Hdig _].
    destruct (n <? 16)%Z eqn:E.
    + apply Z.ltb_lt in E. cbn [digits_in_acc]. rewrite Hdig. f_equal.
      rewrite Hz, Z.mod_small by lia. lia.
    + apply Z.ltb_ge in E.
      rewrite Nat2Z.inj_succ, Z.pow_succ_r in H1 by lia.
      rewrite IH.
      * cbn [digits_in_acc]. rewrite Hdig. f_equal. rewrite Hz.
        pose proof (Z.div_mod n 16 ltac:(lia)). lia.
      * apply Z.div_pos; lia.
      * apply Z.div_lt_upper_bound; lia.
Qed.

Lemma hex_length : forall fuel k n acc,
  (1 <= k)%nat -> (k <= fuel)%nat -> (0 <= n)%Z -> (n < 16 ^ Z.of_nat k)%Z ->
  (String.length (hex_digits_aux fuel n acc) <= String.length acc + k)%nat.
Proof.
  induction fuel as [| fuel IH]; intros k n acc Hk1 Hk2 H0 H1; [lia |].
  cbn [hex_digits_aux]. destruct (n <? 16)%Z eqn:E.
  - cbn [String.length]. lia.
  - apply Z.ltb_ge in E. destruct k as [| [| k]]; [lia | cbn in H1; lia |].
    rewrite Nat2Z.inj_succ, Z.pow_succ_r in H1 by lia.
    specialize (IH (S k) (n / 16)%Z
      (String (if (Z.to_nat (n mod 16) <? 10)%nat
               then ascii_of_nat (48 + Z.to_nat (n mod 16))
               else ascii_of_nat (87 + Z.to_nat (n mod 16))) acc)).
    cbn [String.length] in IH.
    assert (Hq : (n / 16 < 16 ^ Z.of_nat (S k))%Z)
      by (apply Z.div_lt_upper_bound; lia).
    assert (Hp : (0 <= n / 16)%Z) by (apply Z.div_pos; lia).
    specialize (IH ltac:(lia) ltac:(lia) Hp Hq). lia.
Qed.

Lemma hex_no_blank : forall fuel n acc,
  SysImageFacts.no_blank acc = true ->
  SysImageFacts.no_blank (hex_digits_aux fuel n acc) = true.
Proof.
  induction fuel as [| fuel IH]; intros n acc H; [exact H |].
  cbn [hex_digits_aux]. destruct (mod16 n) as [Hd _].
  destruct (hex_char _ Hd) as [_ Hb].
  assert (Hc : SysImageFacts.no_blank
    (String (if (Z.to_nat (n mod 16) <? 10)%nat
             then ascii_of_nat (48 + Z.to_nat (n mod 16))
             else ascii_of_nat (87 + Z.to_nat (n mod 16))) acc) = true)
    by (cbn [SysImageFacts.no_blank]; rewrite Hb, H; reflexivity).
  destruct (n <? 16)%Z; [exact Hc | apply IH; exact Hc].
Qed.

Lemma zero_pad_value : forall fuel w s,
  digits_in_acc 16 0 (zero_pad fuel w s) = digits_in_acc 16 0 s.
Proof.
  induction fuel as [| fuel IH]; intros w s; [reflexivity |].
  cbn [zero_pad]. destruct (String.length s <? w)%nat; [| reflexivity].
  rewrite IH. reflexivity.
Qed.

Lemma zero_pad_no_blank : forall fuel w s,
  SysImageFacts.no_blank s = true ->
  SysImageFacts.no_blank (zero_pad fuel w s) = true.
Proof.
  induction fuel as [| fuel IH]; intros w s H; [exact H |].
  cbn [zero_pad]. destruct (String.length s <? w)%nat; [| exact H].
  apply IH. exact H.
Qed.

Lemma zero_pad_length : forall fuel w s,
  (String.length s <= w <= String.length s + fuel)%nat ->
  String.length (zero_pad fuel w s) = w.
Proof.
  induction fuel as [| fuel IH]; intros w s H; cbn [zero_pad]; [lia |].
  destruct (String.length s <? w)%nat eqn:E.
  - apply Nat.ltb_lt in E. apply IH. cbn. lia.
  - apply Nat.ltb_ge in E. lia.
Qed.

Lemma zero_pad_truthy : forall fuel w s,
  Py.truthy s = true -> Py.truthy (zero_pad fuel w s) = true.
Proof.
  induction fuel as [| fuel IH]; intros w s H; [exact H |].
  cbn [zero_pad]. destruct (String.length s <? w)%nat; [| exact H].
  apply IH. reflexivity.
Qed.

Lemma hex_truthy : forall fuel n acc,
  Py.truthy (hex_digits_aux (S fuel) n acc) = true.
Proof.
  induction fuel as [| fuel IH]; intros n acc; cbn [hex_digits_aux];
    destruct (n <? 16)%Z; try reflexivity. apply IH.
Qed.

Lemma fmt_06x_props : forall n, (0 <= n)%Z -> (n < 16 ^ 6)%Z ->
  String.length (fmt_06x n) = 6%nat /\
  SysImageFacts.no_blank (fmt_06x n) = true /\
  Py.truthy (fmt_06x n) = true /\
  digits_in_acc 16 0 (fmt_06x n) = Some n.
Proof.
  intros n H0 H1. unfold fmt_06x.
  assert (Hhl : (String.length (hex_digits_aux 64 n "") <= 6)%nat)
    by (apply (hex_length 64 6 n ""); cbn; lia).
  split; [apply zero_pad_length; lia |].
  split; [apply zero_pad_no_blank, hex_no_blank; reflexivity |].
  split; [apply zero_pad_truthy, hex_truthy |].
  rewrite zero_pad_value, hex_value by (cbn; lia). reflexivity.
Qed.

(** Extra (send_to_socket): for a manifest shorter than [16^6] bytes the
    bytes given to [sendall] are an 8-byte ([SIZE]) prefix followed by
    the manifest, and [int(x, 0)] of the prefix is the manifest's
    length: a reader of [SIZE] bytes recovers the frame. *)
Theorem size_prefix_round_trip : forall stdout_size manifest p,
  (Z.of_nat (String.length manifest) < 16 ^ 6)%Z ->
  let sent := fst (send_to_socket stdout_size manifest p) in
  String.length (size_prefix manifest) = SIZE /\
  substring 0 SIZE sent = size_prefix manifest /\
  Dual.sdrop SIZE sent = manifest /\
  int0 (substring 0 SIZE sent) = Some (Z.of_nat (String.length manifest)).
Proof.
  intros so manifest p Hlt sent.
  destruct (fmt_06x_props (Z.of_nat (String.length manifest)) ltac:(lia) Hlt)
    as [Hl [Hnb [Ht Hv]]].
  assert (Hlen : String.length (size_prefix manifest) = SIZE).
  { unfold size_prefix. cbn [append String.length]. rewrite Hl. reflexivity. }
  assert (Hs : sent = size_prefix manifest ++ manifest) by reflexivity.
  split; [exact Hlen |]. rewrite Hs.
  rewrite SockFacts.substring_app_prefix by lia.
  rewrite DualFacts.sub0_full by lia.
  split; [reflexivity |].
  split; [rewrite DualFacts.sdrop_app_long by lia; rewrite Hlen, Nat.sub_diag;
          reflexivity |].
  assert (Hnb' : SysImageFacts.no_blank (size_prefix manifest) = true)
    by (unfold size_prefix; cbn [append SysImageFacts.no_blank]; exact Hnb).
  unfold int0. rewrite (strip_no_blank _ Hnb').
  unfold size_prefix. cbn [append].
  unfold unsigned_int0. cbn [Ingest.lower_ascii].
  destruct (fmt_06x (Z.of_nat (String.length manifest))) as [| c r] eqn:Ez;
    [discriminate Ht |].
  exact Hv.
Qed.

Lemma size_prefix_round_trip_witness :
  (Z.of_nat (String.length "{}") < 16 ^ 6)%Z /\
  (let sent := fst (send_to_socket 65536 "{}" {| send_fails := false;
                      times_out := false; reply := "" |}) in
   String.length (size_prefix "{}") = SIZE /\
   substring 0 SIZE sent = size_prefix "{}" /\
   Dual.sdrop SIZE sent = "{}" /\
   int0 (substring 0 SIZE sent) = Some (Z.of_nat (String.length "{}"))).
Proof.
  split; [cbn; lia |].
  apply size_prefix_round_trip. cbn. lia.
Defined.

Lemma substring_length_le : forall s m k,
  (String.length (substring m k s) <= k)%nat.
Proof.
  induction s as [| c s IH]; intros m k; destruct m as [| m], k as [| k];
    cbn; try lia.
  - specialize (IH 0 k). lia.
  - apply IH.
  - apply IH.
Qed.

(** Extra (send_to_socket): the code is one of 0, 1, 2 and 4; a report
    returned with code 0 is never longer than [zerovm_stdout_size], and
    code 4 means the 8-byte size header read as a number over that
    cap. *)
Theorem send_to_socket_codes : forall stdout_size manifest p,
  let '(rc, out, _) := snd (send_to_socket stdout_size manifest p) in
  (rc = 0%Z /\ (Z.of_nat (String.length out) <= stdout_size)%Z) \/
  rc = 1%Z \/ rc = 2%Z \/
  (rc = 4%Z /\ exists size, int0 (substring 0 SIZE (reply p)) = Some size /\
                            (stdout_size < size)%Z).
Proof.
  intros so manifest p. unfold send_to_socket. cbn [snd].
  destruct (times_out p); [auto |]. destruct (send_fails p); [auto |].
  destruct (int0 (substring 0 SIZE (reply p))) as [size |] eqn:Ei; [| auto].
  destruct (Z.eqb size 0); [auto |].
  destruct (size >? so)%Z eqn:Eg.
  - right. right. right. split; [reflexivity |]. exists size. split; [reflexivity |].
    rewrite Z.gtb_ltb in Eg. apply Z.ltb_lt. exact Eg.
  - destruct (size <? 0)%Z eqn:En; [auto |]. left. split; [reflexivity |].
    rewrite Z.gtb_ltb in Eg. apply Z.ltb_ge in Eg. apply Z.ltb_ge in En.
    pose proof (substring_length_le (reply p) SIZE (Z.to_nat size)). lia.
Qed.

End SockFacts2.

(* ------------------------------------------------------------------ *)
(** ** [validate] *)

Module ValidateFacts2.
Import Validate.

(** Extra (validate): [validate] writes the object's metadata only when
    it returns [True]; on every other outcome the store is unchanged.
    An executable whose [Content-Length] is over [zerovm_maxnexe] is
    never validated, whatever the sandbox run would report. *)
Theorem validate_writes_only_on_success : forall path_ok maxnexe st run,
  (let '(r, st') := validate path_ok maxnexe st run in
   r = VBool true \/ st' = st) /\
  (forall md cl n, object_metadata st = Some md ->
     Py.get "Content-Length" md = Some cl -> Py.int cl = Some n ->
     (maxnexe < n)%Z ->
     fst (validate path_ok maxnexe st run) <> VBool true).
Proof.
  intros path_ok maxnexe st [rc out]. split.
  - unfold validate.
    destruct path_ok; cbn [negb]; [| right; reflexivity].
    destruct (device_available st); cbn [negb]; [| right; reflexivity].
    destruct (object_metadata st) as [md |]; [| right; reflexivity].
    destruct (Py.get "Content-Length" md) as [cl |]; [| right; reflexivity].
    destruct (Py.int cl) as [n |]; [| right; reflexivity].
    destruct (n >? maxnexe)%Z; [right; reflexivity |].
    destruct (Z.eqb rc 0); [| right; reflexivity].
    destruct (Py.int (nth Tail.REPORT_VALIDATOR (Py.split_max "010"%char 1 out) ""))
      as [v |]; [| right; reflexivity].
    destruct (Z.eqb v 0); [| right; reflexivity].
    destruct (Py.get "ETag" md); [left | right]; reflexivity.
  - intros md cl n Hm Hc Hn Hgt. unfold validate.
    destruct path_ok; cbn [negb fst]; [| discriminate].
    destruct (device_available st); cbn [negb fst]; [| discriminate].
    rewrite Hm, Hc, Hn, (IngestFacts.gtb_true n maxnexe) by exact Hgt.
    discriminate.
Qed.

Definition big_nexe : store := {|
  device_available := true;
  object_metadata :=
    Some [("ETag", "d41d8cd98f00b204e9800998ecf8427e"); ("Content-Length", "2000")]
|}.

Lemma validate_writes_only_on_success_witness :
  fst (validate true 1000 big_nexe (0%Z, "0" ++ String "010"%char "rest"))
    <> VBool true.
Proof.
  destruct (validate_writes_only_on_success true 1000 big_nexe
              (0%Z, "0" ++ String "010"%char "rest")) as [_ H].
  apply (H [("ETag", "d41d8cd98f00b204e9800998ecf8427e"); ("Content-Length", "2000")]
           "2000" 2000%Z).
  - reflexivity.
  - reflexivity.
  - vm_compute. reflexivity.
  - lia.
Defined.

End ValidateFacts2.

(* ------------------------------------------------------------------ *)
(** ** [__call__]: the [X-Zerovm-Valid] header *)

Module WsgiFacts2.
Import Wsgi.

Definition VALID : string := "x-zerovm-valid".

(** Extra (__call__): when the wrapped object server's headers do not
    carry [x-zerovm-valid], a response passed through to it carries
    [x-zerovm-valid: true] only for a 2xx status and a positive check:
    [validate] on a [PUT] or [POST] marked for validation (or of type
    [application/x-nexe]), or [is_validated] on a [GET] with
    [x-zerovm-valid]; and an execution request ([POST] with
    [x-zerovm-execute]) on a valid path is never passed through. *)
Theorem valid_header_only_after_check : forall req e s h,
  Py.get VALID (app_headers e) = None ->
  call req e = Passthrough s h ->
  path_is_utf8 req = true /\
  has_execute req && String.eqb (method req) "POST" = false /\
  s = app_status e /\
  (Py.get VALID h = Some "true" ->
     (200 <= s < 300)%Z /\
     (((method req = "PUT" \/ method req = "POST") /\ validate_ok e = true) \/
      (method req = "GET" /\ has_valid req = true /\ is_validated_ok e = true))).
Proof.
  intros req e s h Happ Hc. unfold call in Hc.
  destruct (path_is_utf8 req); cbn [negb] in Hc; [| discriminate Hc].
  destruct (has_execute req && String.eqb (method req) "POST") eqn:Ex.
  { destruct (query e); discriminate Hc. }
  split; [reflexivity |]. split; [reflexivity |].
  assert (Hv : forall ok, Py.get VALID (valid_hdr ok (app_status e) (app_headers e))
                            = Some "true" ->
                 (200 <= app_status e < 300)%Z /\ ok = true).
  { intros ok H. unfold valid_hdr in H.
    destruct ((200 <=? app_status e)%Z && (app_status e <? 300)%Z && ok) eqn:E.
    - apply andb_prop in E as [E Hok]. apply andb_prop in E as [E1 E2].
      apply Z.leb_le in E1. apply Z.ltb_lt in E2. auto.
    - rewrite Happ in H. discriminate H. }
  destruct ((String.eqb (method req) "PUT" || String.eqb (method req) "POST") &&
            (has_validate req ||
             String.eqb (content_type req) "application/x-nexe")) eqn:E1.
  - injection Hc as <- <-. split; [reflexivity |]. intros H.
    destruct (Hv _ H) as [Hs Hok]. split; [exact Hs |]. left.
    apply andb_prop in E1 as [E1 _]. apply orb_true_iff in E1.
    split; [| exact Hok].
    destruct E1 as [E1 | E1]; apply String.eqb_eq in E1; auto.
  - destruct (has_valid req && String.eqb (method req) "GET") eqn:E2.
    + injection Hc as <- <-. split; [reflexivity |]. intros H.
      destruct (Hv _ H) as [Hs Hok]. split; [exact Hs |]. right.
      apply andb_prop in E2 as [E2 E3]. apply String.eqb_eq in E3. auto.
    + injection Hc as <- <-. split; [reflexivity |]. intros H.
      rewrite Happ in H. discriminate H.
Qed.

Definition put_req : wsgi_request := {|
  path_is_utf8 := true; method := "PUT"; has_execute := false;
  has_validate := true; has_valid := false; content_type := "" |}.

Definition put_env : wsgi_env := {|
  query := QOtherException;
  app_status := 201; app_headers := [("etag", "d41d8cd98f00b204e9800998ecf8427e")];
  validate_ok := true; is_validated_ok := false; elapsed_ms := 7 |}.

Lemma valid_header_only_after_check_witness :
  (200 <= app_status put_env < 300)%Z /\ validate_ok put_env = true.
Proof.
  destruct (valid_header_only_after_check put_req put_env (app_status put_env)
              (valid_hdr true 201 (app_headers put_env))) as [_ [_ [_ H]]].
  - reflexivity.
  - reflexivity.
  - destruct (H eq_refl) as [Hs [[_ Hok] | [Hm _]]].
    + split; assumption.
    + discriminate Hm.
Defined.

End WsgiFacts2.

(* ------------------------------------------------------------------ *)
(** ** [zerovm_query]: the accepted upload *)

Module IngestFacts2.
Import Ingest.

Lemma body_loop_bound : forall nd exp cs pos p,
  body_loop nd exp pos cs = Ingested p ->
  p = pos \/ (pos < p <= rbytes nd)%Z.
Proof.
  intros nd exp cs. induction cs as [| c cs IH]; intros pos p H; cbn [body_loop] in H.
  - injection H as <-. left. reflexivity.
  - destruct (chunk_len c <=? 0)%Z eqn:E0; [injection H as <-; left; reflexivity |].
    destruct (pos + chunk_len c >? rbytes nd)%Z eqn:E1; [discriminate H |].
    destruct (chunk_time c >? exp)%Z; [discriminate H |].
    destruct (negb (chunk_untar_ok c)); [discriminate H |].
    apply Z.leb_gt in E0. rewrite Z.gtb_ltb in E1. apply Z.ltb_ge in E1.
    destruct (IH _ _ H) as [-> | Hb]; right; lia.
Qed.

(** Extra (zerovm_query, upload): when the upload is accepted, the
    request carried a non-empty [x-zerocloud-id] and a tar
    [Content-Type], the object and pool checks passed, the body read is
    empty or at most [rbytes] bytes, and when a [Content-Length] header
    was sent, the body is exactly that long. *)
Theorem ingest_accepted : forall req nd pos,
  ingest req nd = Ingested pos ->
  opt_truthy (h_zerocloud_id req) = true /\
  IngestFacts.tar_type req /\
  object_checks req nd = None /\
  (pos = 0%Z \/ (0 < pos <= rbytes nd)%Z) /\
  (forall s, h_content_length req = Some s -> Py.int s = Some pos).
Proof.
  intros req nd pos H. unfold ingest in H.
  destruct (opt_truthy (h_zerocloud_id req)) eqn:Hid; cbn [negb] in H;
    [| discriminate H].
  split; [reflexivity |].
  destruct (h_content_length req) as [s |] eqn:Hcl.
  - cbn iota beta in H. destruct (Py.int s) as [n |] eqn:Hi; cbn [option_map] in H;
      [| discriminate H].
    cbn iota beta in H.
    destruct (n >? rbytes nd)%Z; [discriminate H |].
    destruct (h_content_type req) as [ct |] eqn:Hct; [| discriminate H].
    destruct (existsb (String.eqb ct) TAR_MIMES) eqn:Et; cbn [negb] in H;
      [| discriminate H].
    split.
    { exists ct. split; [exact Hct |]. apply existsb_exists in Et as [x [Hx Hq]].
      apply String.eqb_eq in Hq. subst. exact Hx. }
    destruct (object_checks req nd) as [[st b] |]; [discriminate H |].
    split; [reflexivity |].
    destruct (body_loop nd (start_time nd + max_upload_time nd) 0 (req_body req))
      as [st b | p] eqn:Hb; [discriminate H |].
    destruct (p <? n)%Z eqn:E1; [discriminate H |].
    destruct (p >? n)%Z eqn:E2; [discriminate H |].
    injection H as <-.
    rewrite Z.gtb_ltb in E2. apply Z.ltb_ge in E1, E2.
    split; [apply body_loop_bound in Hb; lia |].
    intros s' Hs'. injection Hs' as <-. rewrite Hi. f_equal. lia.
  - cbn iota beta in H.
    destruct (h_content_type req) as [ct |] eqn:Hct; [| discriminate H].
    destruct (existsb (String.eqb ct) TAR_MIMES) eqn:Et; cbn [negb] in H;
      [| discriminate H].
    split.
    { exists ct. split; [exact Hct |]. apply existsb_exists in Et as [x [Hx Hq]].
      apply String.eqb_eq in Hq. subst. exact Hx. }
    destruct (object_checks req nd) as [[st b] |]; [discriminate H |].
    split; [reflexivity |].
    destruct (body_loop nd (start_time nd + max_upload_time nd) 0 (req_body req))
      as [st b | p] eqn:Hb; [discriminate H |].
    injection H as <-.
    split; [apply body_loop_bound in Hb; lia |].
    intros s' Hs'. discriminate Hs'.
Qed.

Definition upload : request := {|
  h_zerocloud_id := Some "job-1";
  h_content_length := Some "10";
  h_content_type := Some "application/x-tar";
  h_access := None; h_colocated := None; h_pool := None;
  h_timestamp_is_float := false;
  url_container := ""; url_obj := "";
  req_body := [{| chunk_len := 10; chunk_time := 1; chunk_untar_ok := true |}] |}.

Lemma ingest_accepted_witness :
  ingest upload IngestFacts.small_node = Ingested 10 /\
  Py.int "10" = Some 10%Z.
Proof.
  assert (H : ingest upload IngestFacts.small_node = Ingested 10)
    by (vm_compute; reflexivity).
  split; [exact H |].
  destruct (ingest_accepted upload IngestFacts.small_node 10 H)
    as [_ [_ [_ [_ Hc]]]].
  apply Hc. reflexivity.
Defined.

End IngestFacts2.

(* ------------------------------------------------------------------ *)
(** ** [_channel_cleanup], [_parse_zerovm_report], [_finalize_local_file] *)

Module TailFacts2.
Import Tail.

Lemma filter_filter : forall {A} (f g : A -> bool) l,
  filter f (filter g l) = filter (fun x => g x && f x) l.
Proof.
  intros A f g l. induction l as [| x l IH]; [reflexivity |]. cbn [filter].
  destruct (g x); cbn [andb filter]; [destruct (f x); cbn [filter] |];
    rewrite IH; reflexivity.
Qed.

(** Extra (_channel_cleanup): cleaning up a list of response channels
    removes exactly their files: the paths left are those of the file
    system that are the [lpath] of no channel, in the same order. *)
Theorem channel_cleanup_exact : forall chs f,
  channel_cleanup chs f =
  filter (fun p => negb (existsb (String.eqb p) (map rc_lpath chs))) f.
Proof.
  induction chs as [| ch chs IH]; intros f; cbn [channel_cleanup].
  - cbn [map existsb negb]. symmetry. apply filter_true.
  - rewrite IH. unfold unlink. rewrite filter_filter. apply filter_ext.
    intros p. cbn [map existsb]. rewrite String.eqb_sym.
    destruct (String.eqb p (rc_lpath ch)); reflexivity.
Qed.

Lemma list_ascii_app : forall a b,
  list_ascii_of_string (a ++ b) =
  (list_ascii_of_string a ++ list_ascii_of_string b)%list.
Proof.
  induction a as [| c a IH]; intros b; [reflexivity |]. cbn. rewrite IH. reflexivity.
Qed.

Lemma in_rev_string : forall a s,
  In a (list_ascii_of_string (Py.rev_string s)) -> In a (list_ascii_of_string s).
Proof.
  induction s as [| c s IH]; intros H; [exact H |].
  cbn [Py.rev_string] in H. rewrite list_ascii_app in H.
  apply in_app_or in H as [H | H]; cbn.
  - right. apply IH. exact H.
  - cbn in H. destruct H as [H | []]. left. exact H.
Qed.

Lemma in_strip_left : forall a s,
  In a (list_ascii_of_string (Py.strip_left s)) -> In a (list_ascii_of_string s).
Proof.
  induction s as [| c s IH]; intros H; [exact H |].
  cbn [Py.strip_left] in H. destruct (Py.is_blank c); [right; apply IH |]; exact H.
Qed.

Lemma in_rstrip : forall a s,
  In a (list_ascii_of_string (rstrip s)) -> In a (list_ascii_of_string s).
Proof.
  intros a s H. unfold rstrip in H.
  apply in_rev_string, in_strip_left, in_rev_string in H. exact H.
Qed.

Lemma replace_char_gone : forall c r s, c <> r ->
  ~ In c (list_ascii_of_string (replace_char c r s)).
Proof.
  intros c r s Hcr. induction s as [| c' s IH]; [intros [] |].
  cbn. intros [H | H]; [| exact (IH H)].
  destruct (Ascii.eqb c c') eqn:E.
  - apply Hcr. symmetry. exact H.
  - apply Ascii.eqb_neq in E. apply E. symmetry. exact H.
Qed.

Lemma strip_left_head : forall s c t,
  Py.strip_left s = String c t -> Py.is_blank c = false.
Proof.
  induction s as [| c0 s IH]; intros c t H; [discriminate H |].
  cbn [Py.strip_left] in H. destruct (Py.is_blank c0) eqn:E.
  - apply (IH _ _ H).
  - injection H as <- _. exact E.
Qed.

Lemma rstrip_last : forall s p c,
  rstrip s = p ++ String c "" -> Py.is_blank c = false.
Proof.
  intros s p c H. apply (f_equal Py.rev_string) in H. unfold rstrip in H.
  rewrite SockFacts2.rev_string_involutive, SockFacts2.rev_string_app in H.
  cbn in H. exact (strip_left_head _ _ _ H).
Qed.

(** Extra (_parse_zerovm_report): when the report parses (all three
    integer fields are integers), the headers hold the validator and
    return code as decimal strings, the etag and CDR fields as they are,
    a status with every LF replaced and no trailing blank, and
    [x-zerovm-daemon] is set to the daemon field exactly when it is
    positive (otherwise left as it was). *)
Theorem parse_report_success : forall nh report nh',
  parse_zerovm_report nh report = (nh', true) ->
  exists v r d,
    Py.int (nth REPORT_VALIDATOR report "") = Some v /\
    Py.int (nth REPORT_RETCODE report "") = Some r /\
    Py.int (nth REPORT_DAEMON report "") = Some d /\
    Py.get "x-nexe-validation" nh' = Some (Z_to_string v) /\
    Py.get "x-nexe-retcode" nh' = Some (Z_to_string r) /\
    Py.get "x-nexe-etag" nh' = Some (nth REPORT_ETAG report "") /\
    Py.get "x-nexe-cdr-line" nh' = Some (nth REPORT_CDR report "") /\
    (exists st, Py.get "x-nexe-status" nh' = Some st /\
       ~ In "010"%char (list_ascii_of_string st) /\
       (forall p c, st = p ++ String c "" -> Py.is_blank c = false)) /\
    Py.get "x-zerovm-daemon" nh' =
      (if (d >? 0)%Z then Some (Z_to_string d) else Py.get "x-zerovm-daemon" nh).
Proof.
  intros nh report nh' H. unfold parse_zerovm_report in H.
  destruct (Py.int (nth REPORT_VALIDATOR report "")) as [v |] eqn:Hv;
    [| discriminate H].
  destruct (Py.int (nth REPORT_RETCODE report "")) as [r |] eqn:Hr;
    [| discriminate H].
  destruct (Py.int (nth REPORT_DAEMON report "")) as [d |] eqn:Hd;
    [| discriminate H].
  exists v, r, d. do 3 (split; [reflexivity |]).
  set (st := rstrip (replace_char "010"%char " "%char (nth REPORT_STATUS report ""))).
  assert (Hst : ~ In "010"%char (list_ascii_of_string st) /\
                (forall p c, st = p ++ String c "" -> Py.is_blank c = false)).
  { split.
    - intros Hin. apply in_rstrip in Hin.
      exact (replace_char_gone "010"%char " "%char _ ltac:(discriminate) Hin).
    - intros p c Hp. exact (rstrip_last _ _ _ Hp). }
  destruct (d >? 0)%Z; injection H as <-; cbn -[rstrip replace_char Z_to_string nth];
    (do 4 (split; [reflexivity |]));
    (split; [exists st; split; [reflexivity | exact Hst] | reflexivity]).
Qed.

Definition good_fields : list string :=
  Py.split_max "010"%char (REPORT_LENGTH - 1) TailFacts.good_report.

Lemma parse_report_success_witness :
  Py.get "x-nexe-status"
    (fst (parse_zerovm_report initial_nexe_headers good_fields)) = Some "ok" /\
  exists v r d,
    Py.int (nth REPORT_VALIDATOR good_fields "") = Some v /\
    Py.int (nth REPORT_RETCODE good_fields "") = Some r /\
    Py.int (nth REPORT_DAEMON good_fields "") = Some d /\
    Py.get "x-nexe-validation"
      (fst (parse_zerovm_report initial_nexe_headers good_fields))
      = Some (Z_to_string v) /\
    Py.get "x-nexe-retcode"
      (fst (parse_zerovm_report initial_nexe_headers good_fields))
      = Some (Z_to_string r) /\
    Py.get "x-nexe-etag"
      (fst (parse_zerovm_report initial_nexe_headers good_fields))
      = Some (nth REPORT_ETAG good_fields "") /\
    Py.get "x-nexe-cdr-line"
      (fst (parse_zerovm_report initial_nexe_headers good_fields))
      = Some (nth REPORT_CDR good_fields "") /\
    (exists st, Py.get "x-nexe-status"
                  (fst (parse_zerovm_report initial_nexe_headers good_fields))
                  = Some st /\
       ~ In "010"%char (list_ascii_of_string st) /\
       (forall p c, st = p ++ String c "" -> Py.is_blank c = false)) /\
    Py.get "x-zerovm-daemon"
      (fst (parse_zerovm_report initial_nexe_headers good_fields)) =
      (if (d >? 0)%Z then Some (Z_to_string d)
       else Py.get "x-zerovm-daemon" initial_nexe_headers).
Proof.
  split; [vm_compute; reflexivity |].
  apply parse_report_success. vm_compute. reflexivity.
Defined.

(** The etag [_finalize_local_file] finds for the object's channel
    device in the report's etag field [nexe_etag]. *)
Definition reported_etag (lw : local_write) (nexe_etag : string) : option string :=
  let data := Py.split " "%char nexe_etag in
  find_etag (lw_channel_device lw)
    (pairs (if Py.startswith (nth 0 data "") "/" then data else tl data)).

(** Extra (_finalize_local_file): on success the metadata written has
    [Content-Length] the object's size and an [ETag] that is the md5 of
    the file when the file was rewritten (an offset) or opened for random
    access, and otherwise the 32-character etag the report gives for the
    channel's device.  Whatever the outcome, no path is created that
    was not there before, and either nothing changed (the etag checks
    failed) or the object's temporary file is gone. *)
Theorem finalize_local_file_result : forall lw nexe_etag f,
  (forall md f', finalize_local_file lw nexe_etag f = (inr md, f') ->
     exists reported,
       reported_etag lw nexe_etag = Some reported /\
       String.length reported = MD5HASH_LENGTH /\
       Py.get "ETag" md =
         Some (if negb (Z.eqb (lw_offset lw) 0) ||
                  negb (Z.eqb (Z.land (lw_access lw) Resolve.ACCESS_RANDOM) 0)
               then lw_file_md5 lw else reported) /\
       Py.get "Content-Length" md = Some (Z_to_string (lw_size lw))) /\
  (forall r f', finalize_local_file lw nexe_etag f = (r, f') ->
     (forall q, In q f' -> In q f) /\ (f' = f \/ ~ In (lw_lpath lw) f')).
Proof.
  intros lw e f. unfold finalize_local_file. fold (reported_etag lw e).
  destruct (reported_etag lw e) as [rep |] eqn:Hrep.
  2:{ split; [intros md f' H; discriminate H |].
      intros r f' H. injection H as _ <-. split; [auto | left; reflexivity]. }
  destruct (Py.truthy rep) eqn:Ht; cbn [negb].
  2:{ split; [intros md f' H; discriminate H |].
      intros r f' H. injection H as _ <-. split; [auto | left; reflexivity]. }
  destruct (Nat.eqb (String.length rep) MD5HASH_LENGTH) eqn:Hl; cbn [negb].
  2:{ split; [intros md f' H; discriminate H |].
      intros r f' H. injection H as _ <-. split; [auto | left; reflexivity]. }
  apply Nat.eqb_eq in Hl.
  destruct (Z.eqb (lw_offset lw) 0) eqn:Ho; cbn [negb orb].
  - destruct (Z.eqb (Z.land (lw_access lw) Resolve.ACCESS_RANDOM) 0) eqn:Ha;
      cbn [negb orb];
      (split;
       [ intros md f' H; exists rep; split; [reflexivity |]; split; [exact Hl |];
         destruct (lw_no_space lw); [discriminate H |];
         injection H as <- _; cbn; split; reflexivity
       | intros r f' H; destruct (lw_no_space lw); injection H as _ <-;
         (split; [intros q Hq; exact (TailFacts.unlink_sub _ _ _ Hq) |
                  right; apply TailFacts.unlink_gone]) ]).
  - split.
    + intros md f' H. exists rep. split; [reflexivity |]. split; [exact Hl |].
      destruct (lw_no_space lw); [discriminate H |].
      injection H as <- _. cbn. split; reflexivity.
    + intros r f' H. destruct (lw_no_space lw); injection H as _ <-;
        rewrite String.eqb_refl; cbn [negb];
        (split;
         [ intros q Hq; exact (TailFacts.unlink_sub _ _ _
                                 (TailFacts.unlink_sub _ _ _ Hq))
         | right; intros Hin; apply TailFacts.unlink_sub in Hin;
           exact (TailFacts.unlink_gone _ _ Hin) ]).
Qed.

Definition output_etag : string :=
  "/dev/output 5d41402abc4b2a76b9719d911017c592".

Lemma finalize_local_file_result_witness :
  exists reported,
    reported_etag TailFacts.local_output output_etag = Some reported /\
    String.length reported = MD5HASH_LENGTH /\
    Py.get "ETag"
      [("X-Timestamp", "1700000000.00000");
       ("Content-Type", "application/octet-stream");
       ("ETag", "5d41402abc4b2a76b9719d911017c592");
       ("Content-Length", "5")] = Some reported /\
    Py.get "Content-Length"
      [("X-Timestamp", "1700000000.00000");
       ("Content-Type", "application/octet-stream");
       ("ETag", "5d41402abc4b2a76b9719d911017c592");
       ("Content-Length", "5")] = Some (Z_to_string 5).
Proof.
  destruct (finalize_local_file_result TailFacts.local_output output_etag
              ["/srv/node/sda1/tmp/tmpObj"]) as [H _].
  apply (H _ []). vm_compute. reflexivity.
Defined.

End TailFacts2.

(* ------------------------------------------------------------------ *)
(** ** The manifest write loop *)

Module MnfstFacts.
Import Mnfst.

Lemma sub0_sdrop : forall w s, substring 0 w s ++ Dual.sdrop w s = s.
Proof.
  induction w as [| w IH]; intros s; [destruct s; reflexivity |].
  destruct s as [| c s]; [reflexivity |]. cbn. rewrite IH. reflexivity.
Qed.

Lemma sdrop_length : forall w s,
  String.length (Dual.sdrop w s) = String.length s - w.
Proof.
  induction w as [| w IH]; intros s; [cbn; lia |].
  destruct s as [| c s]; [reflexivity |]. cbn. apply IH.
Qed.

(** Extra (_create_zerovm_thread, validate): the write loop writes the
    whole manifest, in order: when it ends, the pieces [os.write]
    accepted, put together, are the manifest; and it does end within
    as many calls as the manifest has bytes when every call writes at
    least one byte. *)
Theorem write_all_complete : forall ws s,
  (forall pieces, write_all ws s = Some pieces ->
     fold_right String.append "" pieces = s) /\
  (Forall (fun w => 1 <= w) ws -> String.length s <= length ws ->
     write_all ws s <> None).
Proof.
  induction ws as [| w ws IH]; intros s; split.
  - intros pieces H. destruct s; [injection H as <-; reflexivity | discriminate H].
  - intros _ Hl. destruct s; [discriminate | cbn in Hl; lia].
  - intros pieces H. cbn [write_all] in H.
    destruct s as [| c s0]; [injection H as <-; reflexivity |].
    destruct (write_all ws (Dual.sdrop w (String c s0))) as [l |] eqn:E;
      [| discriminate H].
    injection H as <-. apply (proj1 (IH _)) in E.
    cbn [fold_right]. rewrite E. exact (sub0_sdrop w (String c s0)).
  - intros Hw Hl. inversion Hw as [| w' ws' Hw1 Hws]; subst.
    cbn [write_all]. destruct s as [| c s0]; [discriminate |].
    assert (Hlen : String.length (Dual.sdrop w (String c s0)) <= length ws)
      by (rewrite sdrop_length; cbn [String.length length] in Hl |- *; lia).
    destruct (write_all ws (Dual.sdrop w (String c s0))) as [l |] eqn:E;
      [discriminate |].
    exfalso. exact (proj2 (IH _) Hws Hlen E).
Qed.

Lemma write_all_complete_witness :
  fold_right String.append "" ["Ver"; "sion=20130611"] = "Version=20130611" /\
  write_all (repeat 4 9) "Version=1" <> None.
Proof.
  split.
  - apply (proj1 (write_all_complete [3; 20] "Version=20130611")).
    reflexivity.
  - apply (proj2 (write_all_complete (repeat 4 9) "Version=1")).
    + repeat constructor.
    + cbn. lia.
Defined.

End MnfstFacts.
